(** * ADICVTransformer: ADI / CV² demand classification

    A shallow embedding of [sktime/transformations/series/adi_cv.py].

    - Floating point values are IEEE binary64, that is Python's [float] and
      numpy's [float64]: Rocq's primitive [float].
    - Python's [int] is [Z]; numpy's [int64] is [Z] with the wrap-around
      written out ([wrap_int64]).
    - A raised exception is a value of [exn]; a computation that may raise
      returns a [py A].
    - A method body reads the attributes of [self] through the state and
      exception monad [M]. *)

From Stdlib Require Import ZArith List String Bool Floats Uint63 Sorted Lia.
Import ListNotations.

Set Warnings "-inexact-float".

Local Open Scope string_scope.
Local Open Scope list_scope.
Local Open Scope Z_scope.

(** ** Exceptions *)

Inductive exn : Set :=
| ValueError
| ZeroDivisionError
| IndexError
| KeyError
| UnboundLocalError.

Inductive py (A : Type) : Type :=
| Ret (a : A)
| Raise (e : exn).

Arguments Ret {A} a.
Arguments Raise {A} e.

Definition py_bind {A B : Type} (m : py A) (f : A -> py B) : py B :=
  match m with
  | Ret a => f a
  | Raise e => Raise e
  end.

Definition raises {A : Type} (m : py A) : bool :=
  match m with
  | Ret _ => false
  | Raise _ => true
  end.

Fixpoint py_map {A B : Type} (f : A -> py B) (l : list A) : py (list B) :=
  match l with
  | [] => Ret []
  | a :: l' =>
      py_bind (f a) (fun b => py_bind (py_map f l') (fun bs => Ret (b :: bs)))
  end.

(** ** Sequences, integers, floats *)

Definition len {A : Type} (l : list A) : Z := Z.of_nat (List.length l).

(** [l[i]] for a Python sequence or a one-dimensional numpy array: a
    negative index counts from the end, an index out of range raises. *)
Definition getitem {A : Type} (l : list A) (i : Z) : py A :=
  let j := if i <? 0 then i + len l else i in
  if j <? 0 then Raise IndexError
  else match nth_error l (Z.to_nat j) with
       | Some a => Ret a
       | None => Raise IndexError
       end.

(** [x in l] for a list of [str]. *)
Definition contains (x : string) (l : list string) : bool :=
  existsb (String.eqb x) l.

(** [all(p(x) for x in l)] *)
Definition all {A : Type} (p : A -> bool) (l : list A) : bool := forallb p l.

(** Two's complement wrap-around of numpy's [int64]. *)
Definition wrap_int64 (z : Z) : Z := (z + 2 ^ 63) mod 2 ^ 64 - 2 ^ 63.

(** Conversion of an integer to the nearest binary64 (exact below 2^53 in
    magnitude; the integers converted here are lengths and positions). *)
Definition float_of_int (z : Z) : float :=
  if z <? 0 then PrimFloat.opp (PrimFloat.of_uint63 (Uint63.of_Z (- z)))
  else PrimFloat.of_uint63 (Uint63.of_Z z).

(** The two kinds of numerator [adi_numerator] is bound to: a Python [int]
    ([len(X)]) or a numpy [int64] (a difference of two array elements). *)
Inductive number : Set :=
| PyInt (z : Z)
| NpInt64 (z : Z).

(** The binary64 quotient of two integers. *)
Definition int_quotient (a b : Z) : float :=
  (float_of_int a / float_of_int b)%float.

(** [a / b] with [b] a Python [int].  [int / int] raises on a zero divisor
    and is otherwise the correctly rounded quotient, which for operands
    below 2^53 in magnitude is the quotient of their conversions;
    [numpy.int64 / int] is the IEEE quotient of the conversions (nan or an
    infinity on a zero divisor, with a warning and no exception). *)
Definition truediv (a : number) (b : Z) : py float :=
  match a with
  | PyInt z => if b =? 0 then Raise ZeroDivisionError else Ret (int_quotient z b)
  | NpInt64 z => Ret (int_quotient z b)
  end.

(** ** The series and numpy's reductions *)

(** A univariate series: the single float64 column of [X], by position. *)
Definition series : Set := list float.

(** numpy's truth value of an element: everything that does not compare
    equal to zero, nan included, [-0.0] excluded. *)
Definition is_nonzero (x : float) : bool := negb (x =? 0)%float.

Fixpoint nonzero_from (i : Z) (X : series) : list Z :=
  match X with
  | [] => []
  | x :: X' =>
      if is_nonzero x then i :: nonzero_from (i + 1) X'
      else nonzero_from (i + 1) X'
  end.

(** [X.to_numpy().nonzero()[0]]: the positions of the non-zero entries, in
    increasing order. *)
Definition nonzero (X : series) : list Z := nonzero_from 0 X.

(** [X.iloc[idx].values] *)
Definition iloc (X : series) (idx : list Z) : py (list float) :=
  py_map (getitem X) idx.

(** numpy's summation of a contiguous float64 array ([pairwise_sum] of its
    [add] loops).  Fewer than 8 elements are added from left to right,
    starting from [-0.0]. *)
Definition PW_BLOCKSIZE : nat := 128.

(** A block of at least 8 elements: eight accumulators take the elements
    in turn, eight at a time; they are added as a balanced tree and the
    elements left over (fewer than 8) are added from left to right. *)
Fixpoint unrolled_sum (r0 r1 r2 r3 r4 r5 r6 r7 : float) (a : list float)
    {struct a} : float :=
  match a with
  | x0 :: x1 :: x2 :: x3 :: x4 :: x5 :: x6 :: x7 :: a' =>
      unrolled_sum (r0 + x0) (r1 + x1) (r2 + x2) (r3 + x3)
        (r4 + x4) (r5 + x5) (r6 + x6) (r7 + x7) a'
  | _ =>
      fold_left PrimFloat.add a
        (((r0 + r1) + (r2 + r3)) + ((r4 + r5) + (r6 + r7)))%float
  end.

Definition block_sum (a : list float) : float :=
  match a with
  | x0 :: x1 :: x2 :: x3 :: x4 :: x5 :: x6 :: x7 :: a' =>
      unrolled_sum x0 x1 x2 x3 x4 x5 x6 x7 a'
  | _ => fold_left PrimFloat.add a (-0)%float
  end.

(** More than [PW_BLOCKSIZE] elements are split at [n/2], rounded down to a
    multiple of 8, and the sums of the two parts are added.  [fuel] bounds
    the depth of the splitting; the length of the array is enough
    ([pairwise_sum_fuel]). *)
Fixpoint pairwise_sum (fuel : nat) (a : list float) : float :=
  let n := List.length a in
  if (n <=? PW_BLOCKSIZE)%nat then block_sum a
  else
    match fuel with
    | O => block_sum a
    | S fuel' =>
        let n2 := (n / 2)%nat in
        let n2 := (n2 - n2 mod 8)%nat in
        (pairwise_sum fuel' (firstn n2 a) + pairwise_sum fuel' (skipn n2 a))%float
    end.

(** [numpy.sum] of a float64 array: [numpy.add.reduce], which starts from
    the identity 0 and adds the pairwise sum of the elements.  (The
    starting value only decides the sign of the sum of no elements, which
    below is only divided by their number, 0.) *)
Definition np_sum (a : list float) : float :=
  (0 + pairwise_sum (List.length a) a)%float.

(** [numpy.mean]: the sum over the number of elements; nan on an empty
    array. *)
Definition np_mean (a : list float) : float :=
  (np_sum a / float_of_int (len a))%float.

(** [numpy.var(a, ddof=ddof)]: the mean of the squared deviations from the
    mean, with divisor [max(N - ddof, 0)]. *)
Definition np_var (ddof : Z) (a : list float) : float :=
  let arrmean := np_mean a in
  let x := map (fun v => v - arrmean)%float a in
  let x := map (fun v => v * v)%float x in
  (np_sum x / float_of_int (Z.max (len a - ddof) 0))%float.

(** [numpy.std(a)]: [ddof] defaults to 0, the population standard
    deviation. *)
Definition np_std (a : list float) : float := PrimFloat.sqrt (np_var 0 a).

(** [x ** 2] on a float goes through the C library's [pow(x, 2.0)], whose
    result need not be the correctly rounded square in the last bit:
    [adi_cv2_class_with] and [_transform_with] below take the squaring as
    a parameter.  [sq] is the correctly rounded square, with which the
    method is evaluated on concrete series. *)
Definition sq (x : float) : float := (x * x)%float.

(** ** The transformer object *)

Record ADICVTransformer : Set := mkADICV {
  adi_threshold : float;
  cv_threshold : float;
  features : option (list string);
  adi_trim_handling : string;
  features_internal : list string
}.

(** [ADICVTransformer(features, adi_threshold, cv_threshold,
    adi_trim_handling)]: the initialised object, or the exception raised by
    [__init__]. *)
Definition __init__ (features : option (list string))
    (adi_threshold cv_threshold : float) (adi_trim_handling : string)
    : py ADICVTransformer :=
  match features with
  | Some fs =>
      if negb (all (fun feature => contains feature ["adi"; "cv2"; "class"]) fs)
      then Raise ValueError
      else
        Ret (mkADICV adi_threshold cv_threshold features adi_trim_handling fs)
  | None =>
      Ret (mkADICV adi_threshold cv_threshold features adi_trim_handling
             ["adi"; "cv2"; "class"])
  end.

(** The defaults of the keyword arguments: 1.32 and 0.49 as binary64. *)
Definition default_adi_threshold : float := 0x1.51eb851eb851fp+0%float.
Definition default_cv_threshold : float := 0x1.f5c28f5c28f5cp-2%float.
Definition default_adi_trim_handling : string := "pool".

(** ** Method bodies: the state of [self] and exceptions *)

Definition M (A : Type) : Type := ADICVTransformer -> ADICVTransformer * py A.

Definition ret {A : Type} (a : A) : M A := fun self => (self, Ret a).

Definition raise {A : Type} (e : exn) : M A := fun self => (self, Raise e).

Definition bind {A B : Type} (m : M A) (f : A -> M B) : M B :=
  fun self =>
    match m self with
    | (self', Ret a) => f a self'
    | (self', Raise e) => (self', Raise e)
    end.

(** A computation that does not touch [self]. *)
Definition lift {A : Type} (m : py A) : M A := fun self => (self, m).

(** [self.attr] *)
Definition getattr {A : Type} (attr : ADICVTransformer -> A) : M A :=
  fun self => (self, Ret (attr self)).

Notation "x <- m ;; k" := (bind m (fun x => k))
  (at level 61, m at next level, right associativity).

(** ** The result table *)

(** A value of the one-row result: a float64 or a [str]. *)
Inductive cell : Set :=
| CFloat (v : float)
| CStr (s : string).

(** A Python [dict] from column name to the one-element column, in
    insertion order; also the one-row [DataFrame] built from it, whose
    columns may repeat after a selection by labels. *)
Definition DataFrame : Set := list (string * cell).

(** [d[k] = [v]] *)
Fixpoint setitem (d : DataFrame) (k : string) (v : cell) : DataFrame :=
  match d with
  | [] => [(k, v)]
  | (k', v') :: d' =>
      if String.eqb k' k then (k', v) :: d' else (k', v') :: setitem d' k v
  end.

Fixpoint column (df : DataFrame) (label : string) : py cell :=
  match df with
  | [] => Raise KeyError
  | (k, v) :: df' => if String.eqb k label then Ret v else column df' label
  end.

(** [df.loc[:, labels]]: the columns named by [labels], in that order; a
    label that is not a column raises. *)
Definition loc_columns (df : DataFrame) (labels : list string) : py DataFrame :=
  py_map (fun label => py_bind (column df label) (fun v => Ret (label, v)))
    labels.

(** ** [_transform] *)

(** Lines 216-229: the two comparisons and the if/elif chain.  [None] is
    [class_type] left unbound when no branch is taken. *)
Definition class_type_of (adi_value cv2_value adi_threshold cv_threshold : float)
    : option string :=
  let adi_low := (adi_value <=? adi_threshold)%float in
  let cv2_low := (cv2_value <=? cv_threshold)%float in
  let adi_high := negb adi_low in
  let cv2_high := negb cv2_low in
  if adi_low && cv2_low then Some "smooth"
  else if adi_low && cv2_high then Some "erratic"
  else if adi_high && cv2_low then Some "intermittent"
  else if adi_high && cv2_high then Some "lumpy"
  else None.

(** Lines 194-207: [adi_numerator] and [adi_denominator], or [None] when no
    branch binds them. *)
Definition adi_fraction (X : series) (X_non_zero_indices : list Z)
    : M (option (number * Z)) :=
  let n_non_zero_observations := len X_non_zero_indices in
  let n_observations := len X in
  handling <- getattr adi_trim_handling ;;
  if String.eqb handling "trim" then
    first_non_zero <- lift (getitem X_non_zero_indices 0) ;;
    last_non_zero <- lift (getitem X_non_zero_indices (-1)) ;;
    let adi_numerator := NpInt64 (wrap_int64 (last_non_zero - first_non_zero)) in
    let adi_denominator := n_non_zero_observations - 1 in
    ret (Some (adi_numerator, adi_denominator))
  else
    handling <- getattr adi_trim_handling ;;
    if String.eqb handling "pool" then
      ret (Some (PyInt n_observations, n_non_zero_observations))
    else
      handling <- getattr adi_trim_handling ;;
      if String.eqb handling "ignore" then
        ret (Some (PyInt n_observations, n_non_zero_observations - 1))
      else ret None.

(** Lines 187-229: the three computed values [(adi_value, cv2_value,
    class_type)], with [pow2] for [** 2]. *)
Definition adi_cv2_class_with (pow2 : float -> float) (X : series)
    : M (float * float * option string) :=
  let X_non_zero_indices := nonzero X in
  X_non_zero_values <- lift (iloc X X_non_zero_indices) ;;
  fraction <- adi_fraction X X_non_zero_indices ;;
  adi_value <-
    match fraction with
    | Some (adi_numerator, adi_denominator) =>
        lift (truediv adi_numerator adi_denominator)
    | None => raise UnboundLocalError
    end ;;
  let sigma := np_std X_non_zero_values in
  let mu := np_mean X_non_zero_values in
  let cv2_value := pow2 (sigma / mu)%float in
  adi_thr <- getattr adi_threshold ;;
  cv_thr <- getattr cv_threshold ;;
  ret (adi_value, cv2_value, class_type_of adi_value cv2_value adi_thr cv_thr).

Definition adi_cv2_class (X : series) : M (float * float * option string) :=
  adi_cv2_class_with sq X.

(** Lines 231-248: the values collected under the names of
    [features_internal], then ordered as that list. *)
Definition collect (adi_value cv2_value : float) (class_type : option string)
    : M DataFrame :=
  let return_dict : DataFrame := [] in
  fs <- getattr features_internal ;;
  let return_dict :=
    if contains "adi" fs then setitem return_dict "adi" (CFloat adi_value)
    else return_dict in
  fs <- getattr features_internal ;;
  let return_dict :=
    if contains "cv2" fs then setitem return_dict "cv2" (CFloat cv2_value)
    else return_dict in
  fs <- getattr features_internal ;;
  return_dict <-
    (if contains "class" fs then
       match class_type with
       | Some c => ret (setitem return_dict "class" (CStr c))
       | None => raise UnboundLocalError
       end
     else ret return_dict) ;;
  let df := return_dict in
  fs <- getattr features_internal ;;
  lift (loc_columns df fs).

Definition _transform_with (pow2 : float -> float) (X : series)
    : M DataFrame :=
  values <- adi_cv2_class_with pow2 X ;;
  match values with
  | (adi_value, cv2_value, class_type) => collect adi_value cv2_value class_type
  end.

Definition _transform (X : series) : M DataFrame := _transform_with sq X.

(** The object after a call and what the call returned or raised. *)
Definition state_after {A : Type} (m : M A) (self : ADICVTransformer)
    : ADICVTransformer := fst (m self).

Definition outcome {A : Type} (m : M A) (self : ADICVTransformer) : py A :=
  snd (m self).

(** ** Scenarios *)

Definition scenario_A : series :=
  [5; 0; 0; 3; 0; 4; 0; 0; 0; 2]%float.

Definition scenario_B : series := [1; 1; 1; 1; 1]%float.

Definition default_transformer : py ADICVTransformer :=
  __init__ None default_adi_threshold default_cv_threshold
    default_adi_trim_handling.

(** ** [get_test_params] *)

(** The keyword arguments of a call of the class with a dictionary
    [params] unpacked: each parameter is given or left to its default. *)
Record kwargs : Set := mkKwargs {
  kw_features : option (option (list string));
  kw_adi_threshold : option float;
  kw_cv_threshold : option float;
  kw_adi_trim_handling : option string
}.

Definition default {A : Type} (d : A) (o : option A) : A :=
  match o with
  | Some a => a
  | None => d
  end.

(** The class called with [params] unpacked: [__init__] with the defaults
    of its signature for the keywords that are absent. *)
Definition construct (params : kwargs) : py ADICVTransformer :=
  __init__ (default None (kw_features params))
    (default default_adi_threshold (kw_adi_threshold params))
    (default default_cv_threshold (kw_cv_threshold params))
    (default default_adi_trim_handling (kw_adi_trim_handling params)).

(** Lines 252-281: the three parameter sets, whatever [parameter_set] is. *)
Definition get_test_params (parameter_set : string) : list kwargs :=
  let params1 := mkKwargs None None None None in
  let params2 :=
    mkKwargs (Some None) (Some default_adi_threshold)
      (Some default_cv_threshold) None in
  let params3 :=
    mkKwargs (Some (Some ["adi"; "class"])) (Some 1.5%float) (Some 0.2%float)
      (Some "trim") in
  [params1; params2; params3].

(** * Vocabulary of the properties *)

(** A body that leaves every attribute of [self] as it found it. *)
Definition readonly {A : Type} (m : M A) : Prop :=
  forall self, state_after m self = self.

(** The non-zero subsequence and its length [N], as the specification
    words them. *)
Definition nonzero_values (X : series) : list float := filter is_nonzero X.

Definition count_nonzero (X : series) : Z := len (nonzero_values X).

(** [CV²] over the non-zero subsequence: [(sigma / mu) ** 2]. *)
Definition cv2_with (pow2 : float -> float) (X : series) : float :=
  pow2 (np_std (nonzero_values X) / np_mean (nonzero_values X))%float.

Definition cv2_of (X : series) : float := cv2_with sq X.

(** The value bound to [adi_value] on line 209, or what is raised up to
    there. *)
Definition adi_outcome (X : series) (self : ADICVTransformer) : py float :=
  py_bind (outcome (adi_fraction X (nonzero X)) self)
    (fun fraction =>
       match fraction with
       | Some (adi_numerator, adi_denominator) =>
           truediv adi_numerator adi_denominator
       | None => Raise UnboundLocalError
       end).

(** The 2x2 decision table of the specification. *)
Definition quadrant (adi_low cv2_low : bool) : string :=
  match adi_low, cv2_low with
  | true, true => "smooth"
  | true, false => "erratic"
  | false, true => "intermittent"
  | false, false => "lumpy"
  end.

(** The four class labels. *)
Definition labels : list string := ["smooth"; "erratic"; "intermittent"; "lumpy"].

(** The cell stored under a valid feature name. *)
Definition field (adi_value cv2_value : float) (class_type : string)
    (feature : string) : cell :=
  if String.eqb feature "adi" then CFloat adi_value
  else if String.eqb feature "cv2" then CFloat cv2_value
  else CStr class_type.

(** Every entry is one of the three feature names. *)
Definition valid_features (fs : list string) : Prop :=
  forall f, In f fs -> In f ["adi"; "cv2"; "class"].

(** Position [i] (0-based) of [X] holds a non-zero observation. *)
Definition nonzero_at (X : series) (i : Z) : Prop :=
  0 <= i /\
  exists x, nth_error X (Z.to_nat i) = Some x /\ is_nonzero x = true.

(** The least and the greatest position holding a non-zero observation. *)
Definition first_nonzero_index (X : series) (i : Z) : Prop :=
  nonzero_at X i /\ forall j, nonzero_at X j -> i <= j.

Definition last_nonzero_index (X : series) (i : Z) : Prop :=
  nonzero_at X i /\ forall j, nonzero_at X j -> j <= i.

(** The handlings and counts of non-zero observations on which line 209
    divides without raising. *)
Definition computable (handling : string) (X : series) : Prop :=
  (handling = "pool" /\ count_nonzero X <> 0) \/
  (handling = "trim" /\ count_nonzero X <> 0) \/
  (handling = "ignore" /\ count_nonzero X <> 1).

(** An object with the default thresholds and all three features. *)
Definition transformer (handling : string) : ADICVTransformer :=
  mkADICV default_adi_threshold default_cv_threshold None handling
    ["adi"; "cv2"; "class"].

(** The binary64 nearest to a non-negative integer, in the IEEE 754
    specification of the Standard Library. *)
Definition nearest_binary64 (z : Z) : spec_float :=
  binary_normalize prec emax z 0 false.


(** [lo <= x <= hi] *)
Definition within (x lo hi : float) : bool :=
  ((lo <=? x) && (x <=? hi))%float.


(** Every observation compares equal to zero. *)
Definition all_zero (X : series) : Prop :=
  forall x, In x X -> (x =? 0)%float = true.

(** The feature list in force: the given one, or the default order. *)
Definition configured_features (features : option (list string))
    : list string :=
  match features with
  | Some fs => fs
  | None => ["adi"; "cv2"; "class"]
  end.

(** * Properties *)

(** ** Bodies that only read [self] *)

Lemma readonly_ret {A : Type} (a : A) : readonly (ret a).
Proof. intro self. reflexivity. Qed.

Lemma readonly_raise {A : Type} (e : exn) : readonly (@raise A e).
Proof. intro self. reflexivity. Qed.

Lemma readonly_lift {A : Type} (m : py A) : readonly (lift m).
Proof. intro self. reflexivity. Qed.

Lemma readonly_getattr {A : Type} (attr : ADICVTransformer -> A) :
  readonly (getattr attr).
Proof. intro self. reflexivity. Qed.

Lemma readonly_bind {A B : Type} (m : M A) (f : A -> M B) :
  readonly m -> (forall a, readonly (f a)) -> readonly (bind m f).
Proof.
  intros Hm Hf self. unfold state_after, bind.
  specialize (Hm self). unfold state_after in Hm.
  destruct (m self) as [self' [a | e]]; simpl in Hm; subst self'.
  - apply Hf.
  - reflexivity.
Qed.

Create HintDb readonly.
#[local] Hint Resolve readonly_ret readonly_raise readonly_lift
  readonly_getattr : readonly.

Ltac readonly_step :=
  match goal with
  | |- readonly (bind _ _) => apply readonly_bind; [ | intro ]
  | |- readonly (if ?b then _ else _) => destruct b
  | |- readonly (match ?x with _ => _ end) => destruct x
  | |- readonly _ => solve [ auto with readonly ]
  end.

Lemma readonly_adi_fraction (X : series) (idx : list Z) :
  readonly (adi_fraction X idx).
Proof. unfold adi_fraction. repeat readonly_step. Qed.

Lemma readonly_adi_cv2_class_with (pow2 : float -> float) (X : series) :
  readonly (adi_cv2_class_with pow2 X).
Proof.
  unfold adi_cv2_class_with.
  apply readonly_bind; [ auto with readonly | intro ].
  apply readonly_bind; [ apply readonly_adi_fraction | intro ].
  repeat readonly_step.
Qed.

Lemma readonly_adi_cv2_class (X : series) : readonly (adi_cv2_class X).
Proof. apply readonly_adi_cv2_class_with. Qed.

Lemma readonly_collect (adi_value cv2_value : float) (c : option string) :
  readonly (collect adi_value cv2_value c).
Proof. unfold collect. repeat readonly_step. Qed.

Lemma readonly_transform (X : series) : readonly (_transform X).
Proof.
  unfold _transform, _transform_with. apply readonly_bind.
  - apply readonly_adi_cv2_class.
  - intros [[adi_value cv2_value] c]. apply readonly_collect.
Qed.

(** What a sequence of two read-only steps returns. *)
Lemma outcome_bind {A B : Type} (m : M A) (f : A -> M B) self :
  readonly m ->
  outcome (bind m f) self =
  py_bind (outcome m self) (fun a => outcome (f a) self).
Proof.
  intros Hm. specialize (Hm self). unfold state_after in Hm.
  unfold outcome, bind.
  destruct (m self) as [self' [a | e]]; simpl in *; subst; reflexivity.
Qed.

(** ** The non-zero positions and values *)

Lemma len_nonneg {A : Type} (l : list A) : 0 <= len l.
Proof. unfold len. lia. Qed.

Lemma len_app_one {A : Type} (l : list A) (a : A) : len (l ++ [a]) = len l + 1.
Proof. unfold len. rewrite length_app. simpl. lia. Qed.

Lemma getitem_nonneg {A : Type} (l : list A) (i : Z) :
  0 <= i ->
  getitem l i =
  match nth_error l (Z.to_nat i) with
  | Some a => Ret a
  | None => Raise IndexError
  end.
Proof.
  intros Hi. unfold getitem.
  destruct (i <? 0) eqn:E; [ apply Z.ltb_lt in E; lia | ].
  rewrite E. reflexivity.
Qed.

Lemma length_nonzero_from (X : series) (k : Z) :
  List.length (nonzero_from k X) = List.length (nonzero_values X).
Proof.
  revert k. unfold nonzero_values.
  induction X as [ | x X IH ]; intros k; simpl; [ reflexivity | ].
  destruct (is_nonzero x); simpl; rewrite IH; reflexivity.
Qed.

Lemma len_nonzero_from (X : series) (k : Z) :
  len (nonzero_from k X) = count_nonzero X.
Proof. unfold count_nonzero, len. rewrite length_nonzero_from. reflexivity. Qed.

Lemma len_nonzero (X : series) : len (nonzero X) = count_nonzero X.
Proof. apply len_nonzero_from. Qed.

Lemma iloc_nonzero_from (X P : series) :
  py_map (getitem (P ++ X)) (nonzero_from (len P) X) = Ret (nonzero_values X).
Proof.
  revert P. induction X as [ | x X IH ]; intros P; simpl; [ reflexivity | ].
  assert (Hstep : py_map (getitem (P ++ x :: X)) (nonzero_from (len P + 1) X)
                  = Ret (nonzero_values X)).
  { rewrite <- (len_app_one P x).
    replace (P ++ x :: X) with ((P ++ [x]) ++ X)
      by (rewrite <- app_assoc; reflexivity).
    apply IH. }
  unfold nonzero_values in *. simpl.
  destruct (is_nonzero x); simpl; [ | exact Hstep ].
  rewrite Hstep. rewrite getitem_nonneg by apply len_nonneg.
  unfold len. rewrite Nat2Z.id, nth_error_app2, Nat.sub_diag by lia.
  reflexivity.
Qed.

(** Selecting the rows at the non-zero positions gives the non-zero
    subsequence, and never raises. *)
Lemma iloc_nonzero (X : series) : iloc X (nonzero X) = Ret (nonzero_values X).
Proof. exact (iloc_nonzero_from X []). Qed.

(** ** What [adi_cv2_class] returns *)

Lemma adi_cv2_class_with_outcome (pow2 : float -> float) (X : series)
    (self : ADICVTransformer) :
  outcome (adi_cv2_class_with pow2 X) self =
  py_bind (adi_outcome X self)
    (fun adi_value =>
       Ret (adi_value, cv2_with pow2 X,
            class_type_of adi_value (cv2_with pow2 X)
              (adi_threshold self) (cv_threshold self))).
Proof.
  unfold adi_cv2_class_with, adi_outcome, cv2_with.
  rewrite iloc_nonzero.
  pose proof (readonly_adi_fraction X (nonzero X) self) as Hro.
  unfold state_after in Hro.
  unfold outcome, bind, lift, getattr, ret, raise. simpl.
  destruct (adi_fraction X (nonzero X) self) as [self' [fraction | e]];
    simpl in *; subst self'; [ | reflexivity ].
  destruct fraction as [ [adi_numerator adi_denominator] | ]; simpl;
    [ | reflexivity ].
  destruct (truediv adi_numerator adi_denominator); reflexivity.
Qed.

Lemma adi_cv2_class_outcome (X : series) (self : ADICVTransformer) :
  outcome (adi_cv2_class X) self =
  py_bind (adi_outcome X self)
    (fun adi_value =>
       Ret (adi_value, cv2_of X,
            class_type_of adi_value (cv2_of X)
              (adi_threshold self) (cv_threshold self))).
Proof. apply adi_cv2_class_with_outcome. Qed.

Lemma adi_outcome_pool (X : series) (self : ADICVTransformer) :
  adi_trim_handling self = "pool" ->
  adi_outcome X self = truediv (PyInt (len X)) (count_nonzero X).
Proof.
  intros H. unfold adi_outcome, adi_fraction, outcome, bind, getattr, ret.
  cbn. repeat (rewrite H; cbn). rewrite len_nonzero. reflexivity.
Qed.

Lemma adi_outcome_ignore (X : series) (self : ADICVTransformer) :
  adi_trim_handling self = "ignore" ->
  adi_outcome X self = truediv (PyInt (len X)) (count_nonzero X - 1).
Proof.
  intros H. unfold adi_outcome, adi_fraction, outcome, bind, getattr, ret.
  cbn. repeat (rewrite H; cbn). rewrite len_nonzero. reflexivity.
Qed.

Arguments getitem : simpl never.
Arguments truediv : simpl never.

Lemma adi_outcome_trim (X : series) (self : ADICVTransformer) :
  adi_trim_handling self = "trim" ->
  adi_outcome X self =
  py_bind (getitem (nonzero X) 0) (fun first_non_zero =>
  py_bind (getitem (nonzero X) (-1)) (fun last_non_zero =>
  truediv (NpInt64 (wrap_int64 (last_non_zero - first_non_zero)))
    (count_nonzero X - 1))).
Proof.
  intros H. unfold adi_outcome, adi_fraction, outcome, bind, getattr, ret, lift.
  cbn. repeat (rewrite H; cbn). rewrite len_nonzero.
  destruct (getitem (nonzero X) 0); simpl; [ | reflexivity ].
  destruct (getitem (nonzero X) (-1)); reflexivity.
Qed.

(** A handling that is none of the three names binds neither variable:
    line 209 raises. *)
Lemma adi_outcome_other (X : series) (self : ADICVTransformer) :
  adi_trim_handling self <> "trim" ->
  adi_trim_handling self <> "pool" ->
  adi_trim_handling self <> "ignore" ->
  adi_outcome X self = Raise UnboundLocalError.
Proof.
  intros Ht Hp Hi.
  apply String.eqb_neq in Ht, Hp, Hi.
  unfold adi_outcome, adi_fraction, outcome, bind, getattr, ret.
  cbn. rewrite Ht. cbn. rewrite Hp. cbn. rewrite Hi. reflexivity.
Qed.

Lemma transform_outcome (X : series) (self : ADICVTransformer) :
  outcome (_transform X) self =
  py_bind (outcome (adi_cv2_class X) self)
    (fun values =>
       match values with
       | (adi_value, cv2_value, class_type) =>
           outcome (collect adi_value cv2_value class_type) self
       end).
Proof.
  unfold _transform, _transform_with.
  rewrite outcome_bind by apply readonly_adi_cv2_class_with.
  fold (adi_cv2_class X).
  destruct (outcome (adi_cv2_class X) self) as [ [[a c] t] | e ]; reflexivity.
Qed.

(** ** The class label *)

(** The if/elif chain always binds [class_type], to the table's entry. *)
Lemma class_type_of_quadrant (adi_value cv2_value adi_thr cv_thr : float) :
  class_type_of adi_value cv2_value adi_thr cv_thr =
  Some (quadrant (adi_value <=? adi_thr)%float (cv2_value <=? cv_thr)%float).
Proof.
  unfold class_type_of.
  destruct (adi_value <=? adi_thr)%float, (cv2_value <=? cv_thr)%float;
    reflexivity.
Qed.

Lemma quadrant_in_labels (a c : bool) : In (quadrant a c) labels.
Proof. destruct a, c; simpl; auto. Qed.

(** Python's [x == y] on floats implies [x <= y]. *)
Lemma float_eqb_leb (x y : float) :
  (x =? y)%float = true -> (x <=? y)%float = true.
Proof.
  rewrite FloatAxioms.eqb_spec, FloatAxioms.leb_spec.
  unfold SFeqb, SFleb.
  destruct (SFcompare (Prim2SF x) (Prim2SF y)) as [ [ | | ] | ];
    congruence.
Qed.

(** ** The collected table *)

Lemma py_map_ret {A B : Type} (f : A -> py B) (g : A -> B) (l : list A) :
  (forall a, In a l -> f a = Ret (g a)) -> py_map f l = Ret (map g l).
Proof.
  induction l as [ | a l IH ]; intros H; simpl; [ reflexivity | ].
  rewrite (H a) by (left; reflexivity). simpl.
  rewrite IH by (intros b Hb; apply H; right; exact Hb).
  reflexivity.
Qed.

Lemma contains_In (x : string) (l : list string) :
  contains x l = true <-> In x l.
Proof.
  unfold contains. rewrite existsb_exists. split.
  - intros [y [Hy E]]. apply String.eqb_eq in E. subst. exact Hy.
  - intros H. exists x. split; [ exact H | apply String.eqb_refl ].
Qed.

Lemma contains_true (x : string) (l : list string) :
  In x l -> contains x l = true.
Proof. apply contains_In. Qed.

Lemma collect_outcome (adi_value cv2_value : float) (c : string)
    (self : ADICVTransformer) :
  valid_features (features_internal self) ->
  outcome (collect adi_value cv2_value (Some c)) self =
  Ret (map (fun f => (f, field adi_value cv2_value c f))
         (features_internal self)).
Proof.
  intros Hv. unfold collect, outcome, bind, getattr, ret, lift. cbn.
  destruct (contains "adi" (features_internal self)) eqn:Ea;
    destruct (contains "cv2" (features_internal self)) eqn:Ec;
    destruct (contains "class" (features_internal self)) eqn:El;
    cbn; unfold loc_columns; apply py_map_ret; intros f Hf;
    pose proof (contains_true _ _ Hf) as Hc;
    destruct (Hv f Hf) as [ E | [ E | [ E | [] ] ] ]; subst f;
    try congruence; reflexivity.
Qed.

Lemma column_map (g : string -> cell) (fs : list string) (k : string) :
  In k fs -> column (map (fun f => (f, g f)) fs) k = Ret (g k).
Proof.
  induction fs as [ | f fs IH ]; intros Hin; [ destruct Hin | ].
  simpl. destruct (String.eqb_spec f k) as [ E | E ].
  - subst f. reflexivity.
  - apply IH. destruct Hin; [ congruence | assumption ].
Qed.

(** The object built by [__init__] has only valid names in
    [features_internal]. *)
Lemma init_valid_features features adi_thr cv_thr handling self :
  __init__ features adi_thr cv_thr handling = Ret self ->
  valid_features (features_internal self).
Proof.
  unfold __init__, valid_features.
  destruct features as [ fs | ].
  - destruct (all _ fs) eqn:E; simpl; [ | discriminate ].
    intros H; inversion H; subst; clear H. simpl.
    intros f Hf. unfold all in E. rewrite forallb_forall in E.
    apply (proj1 (contains_In f ["adi"; "cv2"; "class"])). apply E. exact Hf.
  - intros H; inversion H; subst; clear H. simpl. auto.
Qed.

(** [_transform] on an object with valid feature names: what is raised
    comes from the computation of ADI; otherwise the table holds the
    configured fields, in the configured order. *)
Lemma transform_valid_outcome (X : series) (self : ADICVTransformer) :
  valid_features (features_internal self) ->
  outcome (_transform X) self =
  py_bind (adi_outcome X self)
    (fun adi_value =>
       let c := quadrant (adi_value <=? adi_threshold self)%float
                         (cv2_of X <=? cv_threshold self)%float in
       Ret (map (fun f => (f, field adi_value (cv2_of X) c f))
              (features_internal self))).
Proof.
  intros Hv. rewrite transform_outcome, adi_cv2_class_outcome.
  destruct (adi_outcome X self) as [ adi_value | e ]; simpl; [ | reflexivity ].
  rewrite class_type_of_quadrant. apply collect_outcome. exact Hv.
Qed.

(** ** The first and the last non-zero position *)

Lemma In_nonzero_from (X : series) (k i : Z) :
  In i (nonzero_from k X) <->
  k <= i /\
  exists x, nth_error X (Z.to_nat (i - k)) = Some x /\ is_nonzero x = true.
Proof.
  revert k. induction X as [ | x X IH ]; intros k; simpl.
  - split; [ intros [] | ].
    intros [_ [x [H _]]]. destruct (Z.to_nat (i - k)); discriminate.
  - assert (Htail : In i (nonzero_from (k + 1) X) <->
                    k < i /\ exists y, nth_error (x :: X) (Z.to_nat (i - k)) = Some y
                                       /\ is_nonzero y = true).
    { rewrite IH. split.
      - intros [Hk [y Hy]]. split; [ lia | ]. exists y.
        replace (Z.to_nat (i - k)) with (S (Z.to_nat (i - (k + 1)))) by lia.
        exact Hy.
      - intros [Hk [y Hy]]. split; [ lia | ]. exists y.
        replace (Z.to_nat (i - k)) with (S (Z.to_nat (i - (k + 1)))) in Hy
          by lia.
        exact Hy. }
    destruct (is_nonzero x) eqn:Ex.
    + simpl. rewrite Htail. split.
      * intros [ E | [Hk Hy] ].
        -- subst i. split; [ lia | ]. exists x.
           rewrite Z.sub_diag. simpl. auto.
        -- split; [ lia | exact Hy ].
      * intros [Hk Hy]. destruct (Z.eq_dec k i) as [ E | E ]; [ left; exact E | ].
        right. split; [ lia | exact Hy ].
    + rewrite Htail. split.
      * intros [Hk Hy]. split; [ lia | exact Hy ].
      * intros [Hk [y [Hy Hnz]]]. split; [ | exists y; auto ].
        destruct (Z.eq_dec k i) as [ E | E ]; [ | lia ].
        subst i. rewrite Z.sub_diag in Hy. simpl in Hy.
        inversion Hy; subst y. congruence.
Qed.

Lemma In_nonzero (X : series) (i : Z) : In i (nonzero X) <-> nonzero_at X i.
Proof.
  unfold nonzero, nonzero_at. rewrite In_nonzero_from, Z.sub_0_r. reflexivity.
Qed.

Lemma nonzero_from_sorted (X : series) (k : Z) :
  StronglySorted Z.lt (nonzero_from k X).
Proof.
  revert k. induction X as [ | x X IH ]; intros k; simpl.
  - constructor.
  - destruct (is_nonzero x); [ | apply IH ].
    constructor; [ apply IH | ].
    apply Forall_forall. intros i Hi.
    apply In_nonzero_from in Hi. lia.
Qed.

Lemma sorted_head_le (f : Z) (r : list Z) (i : Z) :
  StronglySorted Z.lt (f :: r) -> In i (f :: r) -> f <= i.
Proof.
  intros Hs [ E | Hi ]; [ lia | ].
  apply StronglySorted_inv in Hs. destruct Hs as [_ Hall].
  rewrite Forall_forall in Hall. specialize (Hall i Hi). lia.
Qed.

Lemma sorted_le_last (l : list Z) (d i : Z) :
  StronglySorted Z.lt l -> In i l -> i <= last l d.
Proof.
  revert i. induction l as [ | a l IH ]; intros i Hs Hi; [ destruct Hi | ].
  apply StronglySorted_inv in Hs. destruct Hs as [Hs Hall].
  destruct l as [ | b l ].
  - destruct Hi as [ E | [] ]. simpl. lia.
  - change (last (a :: b :: l) d) with (last (b :: l) d).
    destruct Hi as [ E | Hi ]; [ | apply IH; assumption ].
    subst i. rewrite Forall_forall in Hall.
    specialize (Hall b (or_introl eq_refl)).
    specialize (IH b Hs (or_introl eq_refl)). lia.
Qed.

Lemma last_In {A : Type} (l : list A) (d : A) : l <> [] -> In (last l d) l.
Proof.
  induction l as [ | a l IH ]; intros H; [ congruence | ].
  destruct l as [ | b l ]; [ left; reflexivity | ].
  right. apply IH. discriminate.
Qed.

Lemma nth_error_last {A : Type} (l : list A) (d : A) :
  l <> [] -> nth_error l (List.length l - 1) = Some (last l d).
Proof.
  induction l as [ | a l IH ]; intros H; [ congruence | ].
  destruct l as [ | b l ]; [ reflexivity | ].
  change (last (a :: b :: l) d) with (last (b :: l) d).
  rewrite <- IH by discriminate. simpl. rewrite Nat.sub_0_r. reflexivity.
Qed.

(** [l[0]] and [l[-1]] *)
Lemma getitem_first {A : Type} (l : list A) :
  getitem l 0 = match l with [] => Raise IndexError | a :: _ => Ret a end.
Proof. rewrite getitem_nonneg by lia. destruct l; reflexivity. Qed.

Lemma getitem_last {A : Type} (l : list A) (d : A) :
  getitem l (-1) = match l with [] => Raise IndexError | _ => Ret (last l d) end.
Proof.
  destruct l as [ | a l ]; [ reflexivity | ].
  unfold getitem. change (-1 <? 0) with true. cbv iota.
  assert (H : 0 <= -1 + len (a :: l)) by (unfold len; simpl List.length; lia).
  destruct (-1 + len (a :: l) <? 0) eqn:E; [ apply Z.ltb_lt in E; lia | ].
  replace (Z.to_nat (-1 + len (a :: l))) with (List.length (a :: l) - 1)%nat
    by (unfold len; lia).
  rewrite (nth_error_last (a :: l) d) by discriminate. reflexivity.
Qed.

(** The ends of [nonzero X] are the first and the last non-zero position. *)
Lemma first_nonzero_head (X : series) (f : Z) (r : list Z) :
  nonzero X = f :: r -> first_nonzero_index X f.
Proof.
  intros E. split.
  - apply In_nonzero. rewrite E. left. reflexivity.
  - intros j Hj. apply In_nonzero in Hj. rewrite E in Hj.
    apply (sorted_head_le f r); [ | exact Hj ].
    rewrite <- E. apply nonzero_from_sorted.
Qed.

Lemma last_nonzero_last (X : series) (d : Z) :
  nonzero X <> [] -> last_nonzero_index X (last (nonzero X) d).
Proof.
  intros E. split.
  - apply In_nonzero. apply last_In. exact E.
  - intros j Hj. apply In_nonzero in Hj.
    apply sorted_le_last; [ apply nonzero_from_sorted | exact Hj ].
Qed.

Lemma first_nonzero_index_unique (X : series) (i j : Z) :
  first_nonzero_index X i -> first_nonzero_index X j -> i = j.
Proof. intros [Hi Hmi] [Hj Hmj]. specialize (Hmi j Hj). specialize (Hmj i Hi). lia. Qed.

Lemma last_nonzero_index_unique (X : series) (i j : Z) :
  last_nonzero_index X i -> last_nonzero_index X j -> i = j.
Proof. intros [Hi Hmi] [Hj Hmj]. specialize (Hmi j Hj). specialize (Hmj i Hi). lia. Qed.

Lemma nonzero_at_lt_len (X : series) (i : Z) : nonzero_at X i -> i < len X.
Proof.
  intros [Hi [x [Hx _]]].
  assert (Z.to_nat i < List.length X)%nat
    by (apply nth_error_Some; congruence).
  unfold len. lia.
Qed.

Lemma wrap_int64_small (z : Z) :
  - 2 ^ 63 <= z < 2 ^ 63 -> wrap_int64 z = z.
Proof.
  intros H. unfold wrap_int64. rewrite Z.mod_small; lia.
Qed.

Lemma nonzero_nil_count (X : series) : nonzero X = [] <-> count_nonzero X = 0.
Proof.
  rewrite <- len_nonzero. unfold len.
  destruct (nonzero X); simpl; split; intros; try congruence; lia.
Qed.

(** ** When the ADI is computed *)

Lemma truediv_PyInt (a b : Z) :
  b <> 0 -> truediv (PyInt a) b = Ret (int_quotient a b).
Proof.
  intros H. unfold truediv. apply Z.eqb_neq in H. rewrite H. reflexivity.
Qed.

Lemma truediv_PyInt_zero (a : Z) : truediv (PyInt a) 0 = Raise ZeroDivisionError.
Proof. reflexivity. Qed.

Lemma adi_outcome_trim_nonempty (X : series) (self : ADICVTransformer)
    (f : Z) (r : list Z) :
  adi_trim_handling self = "trim" ->
  nonzero X = f :: r ->
  adi_outcome X self =
  Ret (int_quotient (wrap_int64 (last (nonzero X) 0 - f))
         (count_nonzero X - 1)).
Proof.
  intros H E. rewrite adi_outcome_trim by exact H.
  rewrite getitem_first, (getitem_last _ 0), E. reflexivity.
Qed.

Lemma adi_outcome_trim_empty (X : series) (self : ADICVTransformer) :
  adi_trim_handling self = "trim" ->
  nonzero X = [] ->
  adi_outcome X self = Raise IndexError.
Proof.
  intros H E. rewrite adi_outcome_trim by exact H.
  rewrite getitem_first, E. reflexivity.
Qed.

Lemma adi_outcome_computable (X : series) (self : ADICVTransformer) :
  computable (adi_trim_handling self) X ->
  exists adi_value, adi_outcome X self = Ret adi_value.
Proof.
  intros [ [H HN] | [ [H HN] | [H HN] ] ].
  - rewrite adi_outcome_pool, truediv_PyInt by assumption. eauto.
  - destruct (nonzero X) as [ | f r ] eqn:E.
    + apply nonzero_nil_count in E. contradiction.
    + rewrite (adi_outcome_trim_nonempty X self f r) by assumption. eauto.
  - rewrite adi_outcome_ignore, truediv_PyInt by (assumption || lia). eauto.
Qed.

(** ** Squares of floats *)





(** ** Integers as floats *)

Lemma float_of_int_spec (z : Z) :
  0 <= z < 2 ^ 63 -> Prim2SF (float_of_int z) = nearest_binary64 z.
Proof.
  intros Hz. unfold float_of_int, nearest_binary64.
  destruct (z <? 0) eqn:E; [ apply Z.ltb_lt in E; lia | ].
  rewrite FloatAxioms.of_uint63_spec, Uint63.of_Z_spec.
  rewrite Z.mod_small; [ reflexivity | ].
  change wB with (2 ^ 63). lia.
Qed.

Lemma int_quotient_spec (a b : Z) :
  0 <= a < 2 ^ 63 -> 0 <= b < 2 ^ 63 ->
  Prim2SF (float_of_int a / float_of_int b) =
  SF64div (nearest_binary64 a) (nearest_binary64 b).
Proof.
  intros Ha Hb.
  rewrite FloatAxioms.div_spec, !float_of_int_spec by assumption.
  reflexivity.
Qed.

Lemma count_nonzero_le_len (X : series) : count_nonzero X <= len X.
Proof.
  unfold count_nonzero, nonzero_values, len.
  apply inj_le. apply filter_length_le.
Qed.


(** ** numpy's sum *)

(** Fewer than 8 values are added from left to right. *)
Lemma np_sum_short (a : list float) :
  (List.length a < 8)%nat ->
  np_sum a = (0 + fold_left PrimFloat.add a (-0))%float.
Proof.
  intros H. unfold np_sum.
  do 8 (destruct a as [ | ? a ]; [ reflexivity | ]).
  simpl in H. lia.
Qed.

(** The length of the array is enough fuel for the splitting. *)

Lemma pairwise_sum_fuel (f1 f2 : nat) (a : list float) :
  (List.length a <= f1)%nat -> (List.length a <= f2)%nat ->
  pairwise_sum f1 a = pairwise_sum f2 a.
Proof.
  revert f2 a. induction f1 as [ | f1 IH ]; intros f2 a H1 H2.
  - destruct a; [ | simpl in H1; lia ]. destruct f2; reflexivity.
  - destruct f2 as [ | f2 ].
    + destruct a; [ reflexivity | simpl in H2; lia ].
    + cbn [pairwise_sum].
      destruct (List.length a <=? PW_BLOCKSIZE)%nat eqn:E; [ reflexivity | ].
      apply Nat.leb_gt in E. unfold PW_BLOCKSIZE in E.
      set (n2 := (List.length a / 2 - (List.length a / 2) mod 8)%nat).
      assert (Hdiv : (64 <= List.length a / 2)%nat)
        by (apply Nat.div_le_lower_bound; lia).
      assert (Hhalf : (2 * (List.length a / 2) <= List.length a)%nat)
        by (apply Nat.Div0.mul_div_le).
      assert (Hmod : ((List.length a / 2) mod 8 < 8)%nat)
        by (apply Nat.mod_upper_bound; lia).
      assert (Hn2 : (0 < n2 < List.length a)%nat) by (unfold n2; lia).
      rewrite (IH f2 (firstn n2 a)), (IH f2 (skipn n2 a));
        rewrite ?length_firstn, ?length_skipn; try lia.
      reflexivity.
Qed.

(** * Main results *)

(** C1: whenever ADI and CV² are computed, the class is the entry of the
    2x2 table for [adi_low = (ADI <= adi_threshold)] and
    [cv2_low = (CV² <= cv_threshold)]: smooth, erratic, intermittent, lumpy.
    It is exactly one of the four labels, a value equal to its threshold is
    on the low side, and when "class" is a configured feature this label is
    what the returned table holds under "class". *)
Theorem class_quadrants (X : series) (self : ADICVTransformer)
    (adi_value cv2_value : float) (class_type : option string) :
  outcome (adi_cv2_class X) self = Ret (adi_value, cv2_value, class_type) ->
  let adi_low := (adi_value <=? adi_threshold self)%float in
  let cv2_low := (cv2_value <=? cv_threshold self)%float in
  (adi_low = true -> cv2_low = true -> class_type = Some "smooth") /\
  (adi_low = true -> cv2_low = false -> class_type = Some "erratic") /\
  (adi_low = false -> cv2_low = true -> class_type = Some "intermittent") /\
  (adi_low = false -> cv2_low = false -> class_type = Some "lumpy") /\
  (exists! l, In l labels /\ class_type = Some l) /\
  ((adi_value =? adi_threshold self)%float = true -> adi_low = true) /\
  ((cv2_value =? cv_threshold self)%float = true -> cv2_low = true) /\
  (valid_features (features_internal self) ->
   In "class" (features_internal self) ->
   exists df l, outcome (_transform X) self = Ret df /\
                class_type = Some l /\ column df "class" = Ret (CStr l)).
Proof.
  intros H adi_low cv2_low.
  pose proof H as H'.
  rewrite adi_cv2_class_outcome in H'.
  destruct (adi_outcome X self) as [ a | e ] eqn:Ea; simpl in H';
    [ | discriminate ].
  rewrite class_type_of_quadrant in H'.
  inversion H' as [ [E1 E2 E3] ]. subst a. rewrite E2 in *.
  fold adi_low cv2_low in E3 |- *.
  repeat split.
  - intros Ha Hc. rewrite Ha, Hc. reflexivity.
  - intros Ha Hc. rewrite Ha, Hc. reflexivity.
  - intros Ha Hc. rewrite Ha, Hc. reflexivity.
  - intros Ha Hc. rewrite Ha, Hc. reflexivity.
  - exists (quadrant adi_low cv2_low). split.
    + split; [ apply quadrant_in_labels | reflexivity ].
    + intros l [_ Hl]. congruence.
  - apply float_eqb_leb.
  - apply float_eqb_leb.
  - intros Hv Hin. rewrite transform_valid_outcome, Ea by exact Hv. simpl.
    rewrite E2. fold adi_low cv2_low.
    eexists. exists (quadrant adi_low cv2_low).
    split; [ reflexivity | split; [ reflexivity | ] ].
    rewrite column_map by exact Hin. reflexivity.
Qed.

Lemma class_quadrants_witness :
  outcome (adi_cv2_class scenario_A) (transformer "pool") =
    Ret (2.5%float, cv2_of scenario_A, Some "intermittent") /\
  exists df, outcome (_transform scenario_A) (transformer "pool") = Ret df /\
             column df "class" = Ret (CStr "intermittent").
Proof.
  assert (H : outcome (adi_cv2_class scenario_A) (transformer "pool") =
              Ret (2.5%float, cv2_of scenario_A, Some "intermittent"))
    by (vm_compute; reflexivity).
  split; [ exact H | ].
  destruct (class_quadrants _ _ _ _ _ H)
    as (_ & _ & _ & _ & _ & _ & _ & Hdf).
  destruct Hdf as (df & l & Hout & Hl & Hcol).
  - intros f Hf. exact Hf.
  - simpl. auto.
  - exists df. split; [ exact Hout | ]. congruence.
Defined.

(** On scenario A with the defaults, the returned CV² is not within 0.0001
    of 0.2041. *)
Lemma scenario_A_cv2_is_not_02041 :
  ~ exists self adi cv2,
      default_transformer = Ret self /\
      outcome (_transform scenario_A) self =
        Ret [("adi", CFloat adi); ("cv2", CFloat cv2);
             ("class", CStr "intermittent")] /\
      adi = 2.5%float /\
      within cv2 0.2040 0.2042 = true.
Proof.
  intros (self & adi & cv2 & Hself & Hout & _ & Hcv2).
  vm_compute in Hself. inversion Hself; subst self; clear Hself.
  vm_compute in Hout. inversion Hout; subst; clear Hout.
  vm_compute in Hcv2. discriminate.
Qed.

(** C2 (amended): for the series [5,0,0,3,0,4,0,0,0,2] with handling "pool"
    and the default thresholds 1.32 and 0.49, the result is ADI = 2.5,
    CV² = (sqrt(1.25)/3.5)² which is about 0.1020 (the population variance
    of [5,3,4,2] is 5/4), and class "intermittent". *)
Theorem scenario_A_result :
  exists self cv2,
    default_transformer = Ret self /\
    outcome (_transform scenario_A) self =
      Ret [("adi", CFloat 2.5); ("cv2", CFloat cv2);
           ("class", CStr "intermittent")] /\
    cv2 = sq (PrimFloat.sqrt 1.25 / 3.5)%float /\
    within cv2 0.1020 0.1021 = true /\
    np_mean [5; 3; 4; 2]%float = 3.5%float /\
    np_var 0 [5; 3; 4; 2]%float = 1.25%float.
Proof.
  eexists. eexists.
  split; [ vm_compute; reflexivity | ].
  split; [ vm_compute; reflexivity | ].
  repeat split; vm_compute; reflexivity.
Qed.

(** C3: with [T = len(X)] and [N] non-zero observations, the computed ADI is
    [T / N] under "pool" (for [N >= 1]), and, for [N >= 2],
    [(last - first) / (N - 1)] under "trim", where [first] and [last] are
    the first and the last non-zero position, and [T / (N - 1)] under
    "ignore": in each case, for a series shorter than 2^53, the IEEE 754
    quotient of the binary64 values nearest to the two integers. *)
Theorem adi_formulas (X : series) (self : ADICVTransformer) :
  let T := len X in
  let N := count_nonzero X in
  T < 2 ^ 53 ->
  (adi_trim_handling self = "pool" -> 1 <= N ->
   exists adi cv2 c,
     outcome (adi_cv2_class X) self = Ret (adi, cv2, c) /\
     adi = (float_of_int T / float_of_int N)%float /\
     Prim2SF adi = SF64div (nearest_binary64 T) (nearest_binary64 N)) /\
  (adi_trim_handling self = "trim" -> 2 <= N ->
   exists first last adi cv2 c,
     first_nonzero_index X first /\
     last_nonzero_index X last /\
     outcome (adi_cv2_class X) self = Ret (adi, cv2, c) /\
     adi = (float_of_int (last - first) / float_of_int (N - 1))%float /\
     Prim2SF adi =
       SF64div (nearest_binary64 (last - first)) (nearest_binary64 (N - 1))) /\
  (adi_trim_handling self = "ignore" -> 2 <= N ->
   exists adi cv2 c,
     outcome (adi_cv2_class X) self = Ret (adi, cv2, c) /\
     adi = (float_of_int T / float_of_int (N - 1))%float /\
     Prim2SF adi = SF64div (nearest_binary64 T) (nearest_binary64 (N - 1))).
Proof.
  intros T N Hlen.
  pose proof (count_nonzero_le_len X) as HNT. fold N T in HNT.
  pose proof (len_nonneg (nonzero_values X)) as HN0.
  fold (count_nonzero X) in HN0. fold N in HN0.
  repeat split.
  - intros H HN. rewrite adi_cv2_class_outcome, adi_outcome_pool by exact H.
    rewrite truediv_PyInt by (fold N; lia). simpl.
    eexists. eexists. eexists. split; [ reflexivity | ].
    split; [ reflexivity | ]. apply int_quotient_spec; fold T N; lia.
  - intros H HN.
    destruct (nonzero X) as [ | i r ] eqn:E.
    + apply nonzero_nil_count in E. fold N in E. lia.
    + assert (Hf : first_nonzero_index X i)
        by (apply (first_nonzero_head X i r); exact E).
      assert (Hl : last_nonzero_index X (List.last (i :: r) 0))
        by (rewrite <- E; apply last_nonzero_last; rewrite E; discriminate).
      assert (Hb : 0 <= i <= List.last (i :: r) 0 /\ List.last (i :: r) 0 < T).
      { pose proof (nonzero_at_lt_len X _ (proj1 Hl)).
        pose proof (proj2 Hf _ (proj1 Hl)).
        destruct Hf as [[Hf0 _] _]. fold T in H0. lia. }
      rewrite adi_cv2_class_outcome.
      rewrite (adi_outcome_trim_nonempty X self i r) by assumption.
      rewrite E. revert Hl Hb. generalize (List.last (i :: r) 0). intros l Hl Hb.
      exists i, l.
      rewrite wrap_int64_small by lia. cbn [py_bind].
      eexists. eexists. eexists.
      split; [ exact Hf | ]. split; [ exact Hl | ].
      split; [ reflexivity | ]. split; [ reflexivity | ].
      apply int_quotient_spec; fold N; lia.
  - intros H HN. rewrite adi_cv2_class_outcome, adi_outcome_ignore by exact H.
    rewrite truediv_PyInt by (fold N; lia). simpl.
    eexists. eexists. eexists. split; [ reflexivity | ].
    split; [ reflexivity | ]. apply int_quotient_spec; fold T N; lia.
Qed.

Lemma scenario_A_first : first_nonzero_index scenario_A 0.
Proof. apply (first_nonzero_head scenario_A 0 [3; 5; 9]). reflexivity. Qed.

Lemma scenario_A_last : last_nonzero_index scenario_A 9.
Proof.
  change 9 with (List.last (nonzero scenario_A) 0).
  apply last_nonzero_last. discriminate.
Qed.

Lemma adi_formulas_witness :
  (exists cv2 c, outcome (adi_cv2_class scenario_A) (transformer "pool") =
                   Ret (2.5%float, cv2, c)) /\
  (exists cv2 c, outcome (adi_cv2_class scenario_A) (transformer "trim") =
                   Ret (3%float, cv2, c)) /\
  (exists cv2 c, outcome (adi_cv2_class scenario_A) (transformer "ignore") =
                   Ret (0x1.aaaaaaaaaaaabp+1%float, cv2, c)) /\
  SF64div (nearest_binary64 10) (nearest_binary64 4) = Prim2SF 2.5%float.
Proof.
  assert (HN1 : 1 <= count_nonzero scenario_A) by (vm_compute; discriminate).
  assert (HN2 : 2 <= count_nonzero scenario_A) by (vm_compute; discriminate).
  assert (Hlen : len scenario_A < 2 ^ 53) by (vm_compute; reflexivity).
  destruct (proj1 (adi_formulas scenario_A (transformer "pool") Hlen)
              eq_refl HN1) as (a1 & cv1 & c1 & Hout1 & Ha1 & Hs1).
  destruct (proj1 (proj2 (adi_formulas scenario_A (transformer "trim") Hlen))
              eq_refl HN2)
    as (first & last & a2 & cv2 & c2 & Hf & Hl & Hout2 & Ha2 & _).
  destruct (proj2 (proj2 (adi_formulas scenario_A (transformer "ignore") Hlen))
              eq_refl HN2) as (a3 & cv3 & c3 & Hout3 & Ha3 & _).
  rewrite (first_nonzero_index_unique _ _ _ Hf scenario_A_first) in Ha2.
  rewrite (last_nonzero_index_unique _ _ _ Hl scenario_A_last) in Ha2.
  split; [ | split; [ | split ] ].
  - exists cv1, c1. rewrite Hout1, Ha1. reflexivity.
  - exists cv2, c2. rewrite Hout2, Ha2. reflexivity.
  - exists cv3, c3. rewrite Hout3, Ha3. reflexivity.
  - transitivity (Prim2SF a1); [ symmetry; exact Hs1 | ].
    rewrite Ha1. reflexivity.
Defined.




(** ** Degenerate series *)

Lemma all_zero_count (X : series) : all_zero X <-> count_nonzero X = 0.
Proof.
  unfold all_zero, count_nonzero, nonzero_values, len.
  induction X as [ | x X IH ]; simpl.
  - split; [ reflexivity | intros _ y [] ].
  - unfold is_nonzero at 1. destruct (x =? 0)%float eqn:E; simpl.
    + rewrite <- IH. split.
      * intros H y Hy. apply H. right. exact Hy.
      * intros H y [ Hy | Hy ]; [ subst y; exact E | apply H; exact Hy ].
    + split; [ | lia ].
      intros H. specialize (H x (or_introl eq_refl)). congruence.
Qed.

Lemma init_attributes features adi_thr cv_thr handling self :
  __init__ features adi_thr cv_thr handling = Ret self ->
  adi_threshold self = adi_thr /\ cv_threshold self = cv_thr /\
  adi_trim_handling self = handling.
Proof.
  unfold __init__. destruct features as [ fs | ].
  - destruct (negb _); [ discriminate | ].
    intros H; inversion H; subst; auto.
  - intros H; inversion H; subst; auto.
Qed.

(** An all-zero series under "ignore", and a series with one non-zero
    observation under "trim", raise nothing: a table holding a nan is
    returned. *)
Lemma degenerate_series_returned :
  __init__ None default_adi_threshold default_cv_threshold "ignore" =
    Ret (transformer "ignore") /\
  all_zero [0; 0]%float /\
  outcome (_transform [0; 0]%float) (transformer "ignore") =
    Ret [("adi", CFloat (-2)); ("cv2", CFloat nan); ("class", CStr "erratic")] /\
  __init__ None default_adi_threshold default_cv_threshold "trim" =
    Ret (transformer "trim") /\
  count_nonzero [0; 3; 0]%float = 1 /\
  outcome (_transform [0; 3; 0]%float) (transformer "trim") =
    Ret [("adi", CFloat nan); ("cv2", CFloat 0);
         ("class", CStr "intermittent")].
Proof.
  split; [ reflexivity | ].
  split; [ apply all_zero_count; reflexivity | ].
  split; [ vm_compute; reflexivity | ].
  split; [ reflexivity | ].
  split; [ reflexivity | ].
  vm_compute; reflexivity.
Qed.

(** C5 (amended): an all-zero series of any length makes classify raise
    under "pool" (ZeroDivisionError) and under "trim" (IndexError), and a
    series with exactly one non-zero observation makes it raise under
    "ignore" (ZeroDivisionError); no result is returned in these cases. *)
Theorem degenerate_series_raise (X : series) (self : ADICVTransformer) :
  (all_zero X -> adi_trim_handling self = "pool" ->
   outcome (_transform X) self = Raise ZeroDivisionError) /\
  (all_zero X -> adi_trim_handling self = "trim" ->
   outcome (_transform X) self = Raise IndexError) /\
  (count_nonzero X = 1 -> adi_trim_handling self = "ignore" ->
   outcome (_transform X) self = Raise ZeroDivisionError).
Proof.
  repeat split.
  - intros HX H. apply all_zero_count in HX.
    rewrite transform_outcome, adi_cv2_class_outcome, adi_outcome_pool, HX
      by exact H.
    reflexivity.
  - intros HX H. apply all_zero_count, nonzero_nil_count in HX.
    rewrite transform_outcome, adi_cv2_class_outcome.
    rewrite adi_outcome_trim_empty by assumption. reflexivity.
  - intros HX H.
    rewrite transform_outcome, adi_cv2_class_outcome, adi_outcome_ignore, HX
      by exact H.
    reflexivity.
Qed.

Lemma degenerate_series_raise_witness :
  outcome (_transform [0; 0]%float) (transformer "pool") =
    Raise ZeroDivisionError /\
  outcome (_transform [0; 0]%float) (transformer "trim") = Raise IndexError /\
  outcome (_transform [0; 3; 0]%float) (transformer "ignore") =
    Raise ZeroDivisionError.
Proof.
  assert (Hz : all_zero [0; 0]%float) by (apply all_zero_count; reflexivity).
  split; [ | split ].
  - apply (proj1 (degenerate_series_raise [0; 0]%float (transformer "pool")));
      [ exact Hz | reflexivity ].
  - apply (proj1 (proj2
             (degenerate_series_raise [0; 0]%float (transformer "trim"))));
      [ exact Hz | reflexivity ].
  - apply (proj2 (proj2
             (degenerate_series_raise [0; 3; 0]%float (transformer "ignore"))));
      reflexivity.
Defined.

(** ** Configuration *)

(** C6: a trim handling that is none of "pool", "trim" and "ignore" is not
    rejected by the constructor, which raises exactly when it does for
    "pool"; the object it returns fails at the first classify, on every
    series, with UnboundLocalError. *)
Theorem invalid_trim_handling_fails_late (features : option (list string))
    (adi_thr cv_thr : float) (handling : string) (X : series) :
  handling <> "trim" -> handling <> "pool" -> handling <> "ignore" ->
  raises (__init__ features adi_thr cv_thr handling) =
    raises (__init__ features adi_thr cv_thr "pool") /\
  forall self,
    __init__ features adi_thr cv_thr handling = Ret self ->
    outcome (_transform X) self = Raise UnboundLocalError.
Proof.
  intros Ht Hp Hi. split.
  - unfold __init__. destruct features as [ fs | ]; [ | reflexivity ].
    destruct (negb _); reflexivity.
  - intros self Hself.
    apply init_attributes in Hself. destruct Hself as (_ & _ & Hh).
    rewrite transform_outcome, adi_cv2_class_outcome.
    rewrite adi_outcome_other by (rewrite Hh; assumption).
    reflexivity.
Qed.

Lemma invalid_trim_handling_fails_late_witness :
  raises (__init__ None default_adi_threshold default_cv_threshold "average")
    = false /\
  outcome (_transform scenario_B) (transformer "average") =
    Raise UnboundLocalError.
Proof.
  assert (Ht : "average" <> "trim") by discriminate.
  assert (Hp : "average" <> "pool") by discriminate.
  assert (Hi : "average" <> "ignore") by discriminate.
  destruct (invalid_trim_handling_fails_late None default_adi_threshold
              default_cv_threshold "average" scenario_B Ht Hp Hi) as [H1 H2].
  split; [ exact H1 | ].
  apply H2. reflexivity.
Defined.

(** C7: a features list with an entry outside "adi", "cv2", "class" makes
    the constructor raise (Python's ValueError), whatever the other
    arguments. *)
Theorem invalid_features_rejected (fs : list string) (adi_thr cv_thr : float)
    (handling : string) :
  (exists f, In f fs /\ ~ In f ["adi"; "cv2"; "class"]) ->
  __init__ (Some fs) adi_thr cv_thr handling = Raise ValueError.
Proof.
  intros [f [Hf Hbad]]. unfold __init__.
  destruct (all (fun feature => contains feature ["adi"; "cv2"; "class"]) fs)
    eqn:E; [ | reflexivity ].
  exfalso. apply Hbad. unfold all in E. rewrite forallb_forall in E.
  apply (proj1 (contains_In f ["adi"; "cv2"; "class"])). apply E. exact Hf.
Qed.

Lemma invalid_features_rejected_witness :
  __init__ (Some ["adi"; "bogus"]) default_adi_threshold default_cv_threshold
    "pool" = Raise ValueError.
Proof.
  apply invalid_features_rejected. exists "bogus". split.
  - simpl. auto.
  - simpl. intros [ H | [ H | [ H | [] ] ] ]; discriminate.
Defined.

(** ** The returned fields *)

Lemma init_valid (features : option (list string)) (adi_thr cv_thr : float)
    (handling : string) :
  valid_features (configured_features features) ->
  __init__ features adi_thr cv_thr handling =
  Ret (mkADICV adi_thr cv_thr features handling (configured_features features)).
Proof.
  intros Hv. unfold __init__. destruct features as [ fs | ]; [ | reflexivity ].
  assert (E : all (fun feature => contains feature ["adi"; "cv2"; "class"]) fs
              = true).
  { unfold all. apply forallb_forall. intros f Hf.
    apply contains_In. apply Hv. exact Hf. }
  rewrite E. reflexivity.
Qed.

(** C8: for a non-empty features list with entries among "adi", "cv2",
    "class", the constructor succeeds and, on every series whose ADI is
    computed, classify returns a table whose column names are that list,
    in the order given, each column holding the value of its name; with
    features absent the columns are "adi", "cv2", "class". *)
Theorem features_subsetting (features : option (list string))
    (adi_thr cv_thr : float) (handling : string) (X : series) :
  match features with
  | Some fs => fs <> [] /\ valid_features fs
  | None => True
  end ->
  computable handling X ->
  exists self df adi_value cv2_value class_type,
    __init__ features adi_thr cv_thr handling = Ret self /\
    outcome (adi_cv2_class X) self =
      Ret (adi_value, cv2_value, Some class_type) /\
    outcome (_transform X) self = Ret df /\
    map fst df = configured_features features /\
    df = map (fun f => (f, field adi_value cv2_value class_type f))
           (configured_features features).
Proof.
  intros Hf Hc.
  assert (Hv : valid_features (configured_features features)).
  { destruct features as [ fs | ]; [ apply Hf | ]. intros f H. exact H. }
  set (self := mkADICV adi_thr cv_thr features handling
                 (configured_features features)).
  destruct (adi_outcome_computable X self Hc) as [adi_value Ha].
  exists self.
  exists (map (fun f => (f, field adi_value (cv2_of X)
                              (quadrant (adi_value <=? adi_thr)%float
                                        (cv2_of X <=? cv_thr)%float) f))
            (configured_features features)).
  exists adi_value, (cv2_of X),
    (quadrant (adi_value <=? adi_thr)%float (cv2_of X <=? cv_thr)%float).
  split; [ apply init_valid; exact Hv | ].
  split.
  { rewrite adi_cv2_class_outcome, Ha. simpl.
    rewrite class_type_of_quadrant. reflexivity. }
  split.
  { rewrite transform_valid_outcome by exact Hv. rewrite Ha. reflexivity. }
  split; [ | reflexivity ].
  rewrite map_map. simpl. apply map_id.
Qed.

Lemma features_subsetting_witness :
  exists df,
    outcome (_transform scenario_A)
      (mkADICV default_adi_threshold default_cv_threshold
         (Some ["class"; "adi"]) "trim" ["class"; "adi"]) = Ret df /\
    map fst df = ["class"; "adi"].
Proof.
  assert (Hf : ["class"; "adi"] <> [] /\ valid_features ["class"; "adi"]).
  { split; [ discriminate | ].
    intros f [ H | [ H | [] ] ]; subst f; simpl; auto. }
  assert (Hc : computable "trim" scenario_A).
  { right. left. split; [ reflexivity | vm_compute; discriminate ]. }
  destruct (features_subsetting (Some ["class"; "adi"]) default_adi_threshold
              default_cv_threshold "trim" scenario_A Hf Hc)
    as (self & df & a & c & l & Hinit & _ & Hout & Hcols & _).
  exists df. inversion Hinit; subst self. split; assumption.
Defined.

(** ** Repeated calls *)

(** C9: classify only reads the object: after a call every attribute is as
    before, and a second call on the same series returns or raises exactly
    what the first did. *)
Theorem transform_stateless (X : series) (self : ADICVTransformer) :
  let first_call := _transform X self in
  let second_call := _transform X (fst first_call) in
  fst first_call = self /\
  fst second_call = self /\
  snd second_call = snd first_call.
Proof.
  intros first_call second_call.
  assert (H1 : fst first_call = self) by apply readonly_transform.
  assert (H2 : second_call = first_call).
  { unfold second_call. rewrite H1. reflexivity. }
  rewrite H2. auto.
Qed.

(** ** The empty features list *)

(** C10: the constructor accepts an empty features list, and classify then
    returns a table without columns whenever the ADI is computed: whatever
    it raises comes from the computation of the ADI. *)
Theorem empty_features (adi_thr cv_thr : float) (handling : string)
    (X : series) :
  exists self,
    __init__ (Some []) adi_thr cv_thr handling = Ret self /\
    features_internal self = [] /\
    outcome (_transform X) self =
      py_bind (adi_outcome X self) (fun _ => Ret []) /\
    (computable handling X -> outcome (_transform X) self = Ret []).
Proof.
  exists (mkADICV adi_thr cv_thr (Some []) handling []).
  split; [ reflexivity | ]. split; [ reflexivity | ].
  assert (Hv : valid_features []) by (intros f []).
  split.
  - rewrite transform_valid_outcome by exact Hv. reflexivity.
  - intros Hc. rewrite transform_valid_outcome by exact Hv.
    destruct (adi_outcome_computable X
                (mkADICV adi_thr cv_thr (Some []) handling []) Hc) as [a Ha].
    rewrite Ha. reflexivity.
Qed.

Lemma empty_features_witness :
  exists self,
    __init__ (Some []) default_adi_threshold default_cv_threshold "pool" =
      Ret self /\
    outcome (_transform scenario_A) self = Ret [].
Proof.
  destruct (empty_features default_adi_threshold default_cv_threshold "pool"
              scenario_A) as (self & Hinit & _ & _ & Hout).
  exists self. split; [ exact Hinit | ].
  apply Hout. left. split; [ reflexivity | vm_compute; discriminate ].
Defined.

(** * Further properties of the constructor and of [_transform] *)

(** ** The constructor *)

Lemma forallb_false_exists {A : Type} (p : A -> bool) (l : list A) :
  forallb p l = false -> exists a, In a l /\ p a = false.
Proof.
  induction l as [ | a l IH ]; simpl; [ discriminate | ].
  destruct (p a) eqn:E; simpl.
  - intros H. destruct (IH H) as [b [Hb Hp]]. exists b. auto.
  - intros _. exists a. auto.
Qed.

(** X2: the constructor raises exactly when a features list is given and
    one of its entries is none of "adi", "cv2", "class"; what it raises is
    then ValueError.  The thresholds and the trim handling play no part. *)
Theorem init_raises_iff (fs : option (list string)) (adi_thr cv_thr : float)
    (handling : string) (e : exn) :
  __init__ fs adi_thr cv_thr handling = Raise e <->
  e = ValueError /\
  exists l, fs = Some l /\ exists f, In f l /\ ~ In f ["adi"; "cv2"; "class"].
Proof.
  split.
  - unfold __init__. destruct fs as [ l | ]; [ | discriminate ].
    destruct (all (fun feature => contains feature ["adi"; "cv2"; "class"]) l)
      eqn:E; simpl; [ discriminate | ].
    intros H. inversion H; subst e. split; [ reflexivity | ].
    exists l. split; [ reflexivity | ].
    unfold all in E.
    destruct (forallb_false_exists _ l E) as [f [Hf Hn]].
    exists f. split; [ exact Hf | ].
    intros Hin. apply (contains_true f ["adi"; "cv2"; "class"]) in Hin.
    rewrite Hin in Hn. discriminate.
  - intros [He [l [Hfs [f [Hf Hbad]]]]]. subst e fs. unfold __init__.
    destruct (all (fun feature => contains feature ["adi"; "cv2"; "class"]) l)
      eqn:E; [ | reflexivity ].
    exfalso. apply Hbad. unfold all in E. rewrite forallb_forall in E.
    apply (proj1 (contains_In f ["adi"; "cv2"; "class"])). apply E. exact Hf.
Qed.

(** ** What [_transform] raises *)

Lemma adi_outcome_handling (X : series) (s1 s2 : ADICVTransformer) :
  adi_trim_handling s1 = adi_trim_handling s2 ->
  adi_outcome X s1 = adi_outcome X s2.
Proof.
  intros H.
  destruct (String.eqb_spec (adi_trim_handling s2) "trim") as [ Ht | Ht ].
  { rewrite !adi_outcome_trim by congruence. reflexivity. }
  destruct (String.eqb_spec (adi_trim_handling s2) "pool") as [ Hp | Hp ].
  { rewrite !adi_outcome_pool by congruence. reflexivity. }
  destruct (String.eqb_spec (adi_trim_handling s2) "ignore") as [ Hi | Hi ].
  { rewrite !adi_outcome_ignore by congruence. reflexivity. }
  rewrite !adi_outcome_other by congruence. reflexivity.
Qed.

(** X3: on an object whose feature names are valid, classify raises in
    exactly these cases: ZeroDivisionError for an all-zero series under
    "pool" or one non-zero observation under "ignore"; IndexError for an
    all-zero series under "trim"; UnboundLocalError for a handling that is
    none of the three names.  It raises nothing else, KeyError included. *)
Theorem transform_exceptions (X : series) (self : ADICVTransformer) (e : exn) :
  valid_features (features_internal self) ->
  let handling := adi_trim_handling self in
  let N := count_nonzero X in
  outcome (_transform X) self = Raise e <->
  (e = ZeroDivisionError /\
   ((handling = "pool" /\ N = 0) \/ (handling = "ignore" /\ N = 1))) \/
  (e = IndexError /\ handling = "trim" /\ N = 0) \/
  (e = UnboundLocalError /\
   handling <> "trim" /\ handling <> "pool" /\ handling <> "ignore").
Proof.
  intros Hv handling N.
  assert (Hout : outcome (_transform X) self = Raise e <->
                 adi_outcome X self = Raise e).
  { rewrite transform_valid_outcome by exact Hv.
    destruct (adi_outcome X self); simpl; split; intros H;
      try discriminate; inversion H; reflexivity. }
  rewrite Hout. clear Hout.
  destruct (String.eqb_spec handling "pool") as [ Hp | Hp ].
  { rewrite adi_outcome_pool by exact Hp. fold N.
    unfold truediv. destruct (Z.eqb_spec N 0) as [ HN | HN ].
    - split.
      + intros H. inversion H. left. auto.
      + intros [ [He _] | [ [_ [Ht _]] | [_ [_ [Hpp _]]] ] ];
          [ subst e; reflexivity | | contradiction ].
        rewrite Hp in Ht. discriminate.
    - split; [ discriminate | ].
      intros [ [_ [ [_ H0] | [Hi _] ]] | [ [_ [Ht _]] | [_ [_ [Hpp _]]] ] ];
        try contradiction; rewrite Hp in *; discriminate. }
  destruct (String.eqb_spec handling "ignore") as [ Hi | Hi ].
  { rewrite adi_outcome_ignore by exact Hi. fold N.
    unfold truediv. destruct (Z.eqb_spec (N - 1) 0) as [ HN | HN ].
    - split.
      + intros H. inversion H. left. split; [ reflexivity | ]. right.
        split; [ exact Hi | lia ].
      + intros [ [He _] | [ [_ [Ht _]] | [_ [_ [_ Hii]]] ] ];
          [ subst e; reflexivity | | contradiction ].
        rewrite Hi in Ht. discriminate.
    - split; [ discriminate | ].
      intros [ [_ [ [Hpp _] | [_ H1] ]] | [ [_ [Ht _]] | [_ [_ [_ Hii]]] ] ];
        try contradiction; try lia; rewrite Hi in *; discriminate. }
  destruct (String.eqb_spec handling "trim") as [ Ht | Ht ].
  { destruct (nonzero X) as [ | f r ] eqn:E.
    - rewrite adi_outcome_trim_empty by assumption.
      apply nonzero_nil_count in E. fold N in E. split.
      + intros H. inversion H. right. left. auto.
      + intros [ [_ [ [Hpp _] | [Hii _] ]] | [ [He _] | [_ [Htt _]] ] ];
          try contradiction; subst e; reflexivity.
    - rewrite (adi_outcome_trim_nonempty X self f r) by assumption.
      assert (HN : N <> 0).
      { intros H0. apply nonzero_nil_count in H0. congruence. }
      split; [ discriminate | ].
      intros [ [_ [ [Hpp _] | [Hii _] ]] | [ [_ [_ H0]] | [_ [Htt _]] ] ];
        contradiction. }
  rewrite adi_outcome_other by assumption. split.
  - intros H. inversion H. right. right. auto.
  - intros [ [_ [ [Hpp _] | [Hii _] ]] | [ [_ [Htt _]] | [He _] ] ];
      try contradiction. subst e. reflexivity.
Qed.

Lemma transform_exceptions_witness :
  outcome (_transform [0; 0]%float) (transformer "trim") = Raise IndexError.
Proof.
  assert (Hv : valid_features (features_internal (transformer "trim")))
    by (intros f H; exact H).
  apply (proj2 (transform_exceptions [0; 0]%float (transformer "trim")
                  IndexError Hv)).
  right. left. repeat split.
Defined.

Lemma py_map_raise {A B : Type} (f : A -> py B) (l : list A) (e : exn) :
  (forall a e', In a l -> f a = Raise e' -> e' = e) ->
  (exists a, In a l /\ raises (f a) = true) ->
  py_map f l = Raise e.
Proof.
  induction l as [ | a l IH ]; intros Honly [b [Hb Hr]]; [ destruct Hb | ].
  simpl. destruct (f a) as [ v | e' ] eqn:Ea; simpl.
  - rewrite IH; [ reflexivity | | ].
    + intros x e'' Hx. apply Honly. right. exact Hx.
    + destruct Hb as [ Hb | Hb ]; [ | exists b; auto ].
      subst b. rewrite Ea in Hr. discriminate.
  - rewrite (Honly a e' (or_introl eq_refl) Ea). reflexivity.
Qed.

Lemma column_raises_KeyError (df : DataFrame) (k : string) (e : exn) :
  column df k = Raise e -> e = KeyError.
Proof.
  induction df as [ | [k' v] df IH ]; simpl.
  - intros H. inversion H. reflexivity.
  - destruct (String.eqb k' k); [ discriminate | exact IH ].
Qed.

Lemma column_missing (df : DataFrame) (f : string) :
  (forall k v, In (k, v) df -> k <> f) -> column df f = Raise KeyError.
Proof.
  induction df as [ | [k v] df IH ]; intros H; simpl; [ reflexivity | ].
  destruct (String.eqb_spec k f) as [ E | E ].
  - exfalso. apply (H k v); [ left; reflexivity | exact E ].
  - apply IH. intros k' v' Hin. apply (H k' v'). right. exact Hin.
Qed.

(** X4: when [features_internal] holds a name that is none of "adi", "cv2",
    "class" (the attribute was changed after construction) and the ADI is
    computed, selecting the columns raises KeyError: no table is returned,
    not even for the valid names. *)
Theorem transform_unknown_feature (X : series) (self : ADICVTransformer) :
  (exists f, In f (features_internal self) /\
             ~ In f ["adi"; "cv2"; "class"]) ->
  computable (adi_trim_handling self) X ->
  outcome (_transform X) self = Raise KeyError.
Proof.
  intros [f [Hf Hbad]] Hc.
  destruct (adi_outcome_computable X self Hc) as [adi_value Ha].
  rewrite transform_outcome, adi_cv2_class_outcome, Ha. simpl.
  rewrite class_type_of_quadrant.
  unfold collect, outcome, bind, getattr, ret, lift. cbn.
  destruct (contains "adi" (features_internal self));
    destruct (contains "cv2" (features_internal self));
    destruct (contains "class" (features_internal self));
    cbn; unfold loc_columns; apply py_map_raise;
    try (intros a e' _ H;
         match type of H with
         | py_bind (column ?d a) _ = _ =>
             destruct (column d a) eqn:Ecol; simpl in H;
             [ discriminate
             | inversion H; subst; apply (column_raises_KeyError _ _ _ Ecol) ]
         end);
    exists f; (split; [ exact Hf | ]);
    rewrite column_missing;
    try reflexivity;
    intros k v Hin Ek; subst k; apply Hbad; simpl in Hin; simpl;
    repeat (destruct Hin as [ Hin | Hin ]; [ inversion Hin; auto | ]);
    destruct Hin.
Qed.

Lemma transform_unknown_feature_witness :
  outcome (_transform scenario_A)
    (mkADICV default_adi_threshold default_cv_threshold None "pool"
       ["adi"; "bogus"]) = Raise KeyError.
Proof.
  apply transform_unknown_feature.
  - exists "bogus". split; [ simpl; auto | ].
    simpl. intros [ H | [ H | [ H | [] ] ] ]; discriminate.
  - left. split; [ reflexivity | vm_compute; discriminate ].
Defined.

(** X5: when "class" is not a configured feature, the thresholds have no
    effect: two objects with the same trim handling and the same valid
    feature list return the same table, or raise the same, on every
    series. *)
Theorem thresholds_only_class (X : series) (s1 s2 : ADICVTransformer) :
  adi_trim_handling s1 = adi_trim_handling s2 ->
  features_internal s1 = features_internal s2 ->
  valid_features (features_internal s1) ->
  ~ In "class" (features_internal s1) ->
  outcome (_transform X) s1 = outcome (_transform X) s2.
Proof.
  intros Hh Hfs Hv Hnc.
  rewrite (transform_valid_outcome X s1) by exact Hv.
  rewrite (transform_valid_outcome X s2) by (rewrite <- Hfs; exact Hv).
  rewrite (adi_outcome_handling X s1 s2 Hh), <- Hfs.
  destruct (adi_outcome X s2) as [ a | e ]; simpl; [ | reflexivity ].
  f_equal. apply map_ext_in. intros f Hf.
  destruct (Hv f Hf) as [ E | [ E | [ E | [] ] ] ]; subst f;
    [ reflexivity | reflexivity | contradiction ].
Qed.

Lemma thresholds_only_class_witness :
  outcome (_transform scenario_A)
    (mkADICV 0.1%float 0.1%float (Some ["cv2"; "adi"]) "trim" ["cv2"; "adi"]) =
  outcome (_transform scenario_A)
    (mkADICV 5%float 7%float (Some ["cv2"; "adi"]) "trim" ["cv2"; "adi"]).
Proof.
  apply thresholds_only_class; try reflexivity.
  - intros f [ H | [ H | [] ] ]; subst f; simpl; auto.
  - simpl. intros [ H | [ H | [] ] ]; discriminate.
Defined.

(** ** Zeros at the edges and in between *)

Lemma nonzero_from_shift (X : series) (k d : Z) :
  nonzero_from (k + d) X = map (Z.add d) (nonzero_from k X).
Proof.
  revert k. induction X as [ | x X IH ]; intros k; simpl; [ reflexivity | ].
  replace (k + d + 1) with (k + 1 + d) by lia.
  destruct (is_nonzero x); simpl; rewrite IH; [ | reflexivity ].
  f_equal. lia.
Qed.

Lemma nonzero_from_app (A B : series) (k : Z) :
  nonzero_from k (A ++ B) = nonzero_from k A ++ nonzero_from (k + len A) B.
Proof.
  revert k. induction A as [ | a A IH ]; intros k; simpl.
  - unfold len. simpl. rewrite Z.add_0_r. reflexivity.
  - rewrite IH.
    replace (k + 1 + len A) with (k + len (a :: A))
      by (unfold len; simpl List.length; lia).
    destruct (is_nonzero a); reflexivity.
Qed.

Lemma nonzero_from_all_zero (Z0 : series) (k : Z) :
  all_zero Z0 -> nonzero_from k Z0 = [].
Proof.
  intros H. apply all_zero_count in H.
  rewrite <- (len_nonzero_from Z0 k) in H. unfold len in H.
  destruct (nonzero_from k Z0); [ reflexivity | simpl in H; lia ].
Qed.

Lemma nonzero_values_all_zero (Z0 : series) :
  all_zero Z0 -> nonzero_values Z0 = [].
Proof.
  intros H. apply all_zero_count in H. unfold count_nonzero, len in H.
  destruct (nonzero_values Z0); [ reflexivity | simpl in H; lia ].
Qed.

Lemma nonzero_padded (Z1 X Z2 : series) :
  all_zero Z1 -> all_zero Z2 ->
  nonzero (Z1 ++ X ++ Z2) = map (Z.add (len Z1)) (nonzero X) /\
  nonzero_values (Z1 ++ X ++ Z2) = nonzero_values X.
Proof.
  intros H1 H2. split.
  - unfold nonzero. rewrite !nonzero_from_app.
    rewrite (nonzero_from_all_zero Z1), (nonzero_from_all_zero Z2) by assumption.
    rewrite app_nil_r. simpl.
    rewrite <- (nonzero_from_shift X 0 (len Z1)). reflexivity.
  - unfold nonzero_values. rewrite !filter_app.
    fold (nonzero_values Z1) (nonzero_values Z2).
    rewrite (nonzero_values_all_zero Z1), (nonzero_values_all_zero Z2)
      by assumption.
    rewrite app_nil_r. reflexivity.
Qed.

Lemma last_map {A B : Type} (f : A -> B) (l : list A) (d : A) (d' : B) :
  l <> [] -> last (map f l) d' = f (last l d).
Proof.
  induction l as [ | a l IH ]; intros H; [ congruence | ].
  destruct l as [ | b l ]; [ reflexivity | ].
  change (last (map f (a :: b :: l)) d') with (last (map f (b :: l)) d').
  change (last (a :: b :: l) d) with (last (b :: l) d).
  apply IH. discriminate.
Qed.

(** What [_transform] returns depends on the series only through the ADI
    outcome and the non-zero values. *)
Lemma transform_outcome_ext (X Y : series) (self : ADICVTransformer) :
  adi_outcome X self = adi_outcome Y self ->
  nonzero_values X = nonzero_values Y ->
  outcome (_transform X) self = outcome (_transform Y) self.
Proof.
  intros Ha Hv. rewrite !transform_outcome, !adi_cv2_class_outcome.
  unfold cv2_of, cv2_with. rewrite Ha, Hv. reflexivity.
Qed.

(** X6: under "trim", zeros before the first and after the last
    observation of a series change nothing: the padded series gives the
    same table, or raises the same, whatever the features and
    thresholds. *)
Theorem trim_ignores_edge_zeros (Z1 X Z2 : series) (self : ADICVTransformer) :
  adi_trim_handling self = "trim" ->
  all_zero Z1 -> all_zero Z2 ->
  outcome (_transform (Z1 ++ X ++ Z2)) self = outcome (_transform X) self.
Proof.
  intros H H1 H2.
  destruct (nonzero_padded Z1 X Z2 H1 H2) as [Hidx Hval].
  apply transform_outcome_ext; [ | exact Hval ].
  rewrite !adi_outcome_trim by exact H.
  unfold count_nonzero. rewrite Hval, Hidx.
  rewrite !getitem_first, !(getitem_last _ 0).
  destruct (nonzero X) as [ | f r ]; [ reflexivity | ].
  rewrite (last_map (Z.add (len Z1)) (f :: r) 0 0) by discriminate.
  cbn [map py_bind].
  replace (len Z1 + last (f :: r) 0 - (len Z1 + f))
    with (last (f :: r) 0 - f) by lia.
  reflexivity.
Qed.

Lemma trim_ignores_edge_zeros_witness :
  outcome (_transform ([0; 0] ++ scenario_A ++ [0])%float) (transformer "trim") =
  outcome (_transform scenario_A) (transformer "trim").
Proof.
  apply trim_ignores_edge_zeros; [ reflexivity | | ];
    apply all_zero_count; reflexivity.
Defined.

(** X7: under "pool" and "ignore", where the zeros stand is irrelevant: two
    series of the same length with the same non-zero values in the same
    order give the same table, or raise the same. *)
Theorem pool_ignore_zero_positions (X Y : series) (self : ADICVTransformer) :
  adi_trim_handling self = "pool" \/ adi_trim_handling self = "ignore" ->
  len X = len Y ->
  nonzero_values X = nonzero_values Y ->
  outcome (_transform X) self = outcome (_transform Y) self.
Proof.
  intros H Hlen Hval.
  apply transform_outcome_ext; [ | exact Hval ].
  unfold count_nonzero in *.
  destruct H as [ H | H ].
  - rewrite !adi_outcome_pool by exact H.
    unfold count_nonzero. rewrite Hlen, Hval. reflexivity.
  - rewrite !adi_outcome_ignore by exact H.
    unfold count_nonzero. rewrite Hlen, Hval. reflexivity.
Qed.

Lemma pool_ignore_zero_positions_witness :
  outcome (_transform [0; 0; 5; 3; 0]%float) (transformer "ignore") =
  outcome (_transform [5; 0; 0; 0; 3]%float) (transformer "ignore").
Proof.
  apply pool_ignore_zero_positions; [ right | | ]; reflexivity.
Defined.

Lemma adi_outcome_trim_ends (X : series) (self : ADICVTransformer) (f l : Z) :
  adi_trim_handling self = "trim" ->
  first_nonzero_index X f ->
  last_nonzero_index X l ->
  len X < 2 ^ 63 ->
  adi_outcome X self = Ret (int_quotient (l - f) (count_nonzero X - 1)).
Proof.
  intros H Hf Hl Hlen.
  destruct (nonzero X) as [ | i r ] eqn:E.
  - destruct Hf as [Hf _]. apply In_nonzero in Hf. rewrite E in Hf. destruct Hf.
  - rewrite (adi_outcome_trim_nonempty X self i r) by assumption.
    assert (Ei : i = f).
    { apply (first_nonzero_index_unique X); [ | exact Hf ].
      apply (first_nonzero_head X i r). exact E. }
    assert (El : last (nonzero X) 0 = l).
    { apply (last_nonzero_index_unique X); [ | exact Hl ].
      apply last_nonzero_last. rewrite E. discriminate. }
    rewrite El, Ei, wrap_int64_small; [ reflexivity | ].
    destruct Hf as [Hf _]. destruct Hl as [Hl _].
    pose proof (nonzero_at_lt_len X l Hl).
    pose proof (nonzero_at_lt_len X f Hf).
    destruct Hf as [Hf0 _]. destruct Hl as [Hl0 _]. lia.
Qed.

(** X8: under "trim", when the first and the last observation of the
    series are both non-zero, the ADI is [(T - 1) / (N - 1)]: the IEEE 754
    quotient of the binary64 values nearest to [T - 1] and [N - 1]. *)
Theorem trim_without_edge_zeros (X : series) (self : ADICVTransformer)
    (a b : float) :
  adi_trim_handling self = "trim" ->
  getitem X 0 = Ret a -> is_nonzero a = true ->
  getitem X (-1) = Ret b -> is_nonzero b = true ->
  len X < 2 ^ 53 ->
  exists adi cv2 c,
    outcome (adi_cv2_class X) self = Ret (adi, cv2, c) /\
    adi = (float_of_int (len X - 1) / float_of_int (count_nonzero X - 1))%float /\
    Prim2SF adi =
      SF64div (nearest_binary64 (len X - 1))
        (nearest_binary64 (count_nonzero X - 1)).
Proof.
  intros H Ha Hna Hb Hnb Hlen.
  rewrite getitem_first in Ha. rewrite (getitem_last X 0%float) in Hb.
  destruct X as [ | x X ]; [ discriminate | ].
  inversion Ha; subst a. inversion Hb as [ Eb ]. clear Ha Hb.
  assert (Hf : first_nonzero_index (x :: X) 0).
  { split.
    - split; [ lia | ]. exists x. split; [ reflexivity | exact Hna ].
    - intros j [Hj _]. exact Hj. }
  assert (Hl : last_nonzero_index (x :: X) (len (x :: X) - 1)).
  { split.
    - split; [ pose proof (len_nonneg X); unfold len in *; simpl List.length; lia | ].
      exists b. split; [ | exact Hnb ].
      replace (Z.to_nat (len (x :: X) - 1))
        with (List.length (x :: X) - 1)%nat by (unfold len; lia).
      rewrite <- Eb. apply (nth_error_last (x :: X) 0%float). discriminate.
    - intros j Hj. apply nonzero_at_lt_len in Hj. lia. }
  assert (HN : 1 <= count_nonzero (x :: X) <= len (x :: X)).
  { split; [ | apply count_nonzero_le_len ].
    unfold count_nonzero, nonzero_values, len. simpl filter.
    rewrite Hna. simpl List.length. lia. }
  rewrite adi_cv2_class_outcome.
  rewrite (adi_outcome_trim_ends _ self 0 (len (x :: X) - 1))
    by (assumption || lia).
  rewrite Z.sub_0_r. cbn [py_bind].
  eexists. eexists. eexists. split; [ reflexivity | ].
  split; [ reflexivity | ].
  apply int_quotient_spec; lia.
Qed.

Lemma trim_without_edge_zeros_witness :
  exists cv2 c,
    outcome (adi_cv2_class scenario_A) (transformer "trim") =
      Ret (3%float, cv2, c).
Proof.
  destruct (trim_without_edge_zeros scenario_A (transformer "trim")
              5%float 2%float) as (adi & cv2 & c & Hout & Ha & _);
    try reflexivity.
  exists cv2, c. rewrite Hout, Ha. reflexivity.
Defined.

(** ** Degenerate series that are not rejected *)

Lemma leb_nan_l (y : float) : (nan <=? y)%float = false.
Proof. rewrite FloatAxioms.leb_spec. reflexivity. Qed.

(** X9: under "trim", a series with exactly one non-zero observation is not
    rejected: the ADI is nan (0/0), which is never low, so the class is
    "intermittent" or "lumpy" whatever the thresholds. *)
Theorem trim_single_observation (X : series) (self : ADICVTransformer) :
  adi_trim_handling self = "trim" ->
  count_nonzero X = 1 ->
  exists cv2 c,
    outcome (adi_cv2_class X) self = Ret (nan, cv2, Some c) /\
    (c = "intermittent" \/ c = "lumpy").
Proof.
  intros H HN.
  assert (E : exists i, nonzero X = [i]).
  { rewrite <- len_nonzero in HN. unfold len in HN.
    destruct (nonzero X) as [ | i [ | j r ] ]; simpl in HN; try lia.
    exists i. reflexivity. }
  destruct E as [i E].
  rewrite adi_cv2_class_outcome.
  rewrite (adi_outcome_trim_nonempty X self i []) by assumption.
  rewrite E, HN. simpl last. rewrite Z.sub_diag.
  change (int_quotient (wrap_int64 0) (1 - 1)) with nan.
  simpl. rewrite class_type_of_quadrant, leb_nan_l.
  eexists. eexists. split; [ reflexivity | ].
  destruct (cv2_of X <=? cv_threshold self)%float; simpl; auto.
Qed.

Lemma trim_single_observation_witness :
  exists cv2 c,
    outcome (adi_cv2_class [0; 3; 0]%float) (transformer "trim") =
      Ret (nan, cv2, Some c) /\
    (c = "intermittent" \/ c = "lumpy").
Proof.
  apply trim_single_observation; reflexivity.
Defined.

(** X10: under "ignore", an all-zero series is not rejected: the ADI is
    [T / (-1)], the IEEE 754 quotient of the binary64 nearest to [T] and
    [-1]; CV² is nan (mean and deviation of no values), which is never
    low, so the class is "erratic" or "lumpy". *)
Theorem ignore_all_zero (X : series) (self : ADICVTransformer) :
  adi_trim_handling self = "ignore" ->
  all_zero X ->
  len X < 2 ^ 53 ->
  exists adi c,
    outcome (adi_cv2_class X) self = Ret (adi, nan, Some c) /\
    adi = (float_of_int (len X) / -1)%float /\
    Prim2SF adi =
      SF64div (nearest_binary64 (len X)) (SFopp (nearest_binary64 1)) /\
    (c = "erratic" \/ c = "lumpy").
Proof.
  intros H HX Hlen.
  pose proof (nonzero_values_all_zero X HX) as Hv.
  apply all_zero_count in HX.
  rewrite adi_cv2_class_outcome, adi_outcome_ignore, HX by exact H.
  assert (Hcv : cv2_of X = nan)
    by (unfold cv2_of, cv2_with; rewrite Hv; reflexivity).
  rewrite Hcv. change (truediv (PyInt (len X)) (0 - 1))
    with (@Ret float (float_of_int (len X) / -1)%float).
  cbn [py_bind]. rewrite class_type_of_quadrant, leb_nan_l.
  eexists. eexists. split; [ reflexivity | ].
  split; [ reflexivity | ]. split.
  - rewrite FloatAxioms.div_spec, float_of_int_spec
      by (pose proof (len_nonneg X); lia).
    reflexivity.
  - destruct (_ <=? _)%float; simpl; auto.
Qed.

Lemma ignore_all_zero_witness :
  exists c,
    outcome (adi_cv2_class [0; 0]%float) (transformer "ignore") =
      Ret ((-2)%float, nan, Some c) /\
    (c = "erratic" \/ c = "lumpy").
Proof.
  destruct (ignore_all_zero [0; 0]%float (transformer "ignore"))
    as (adi & c & Hout & Ha & _ & Hc).
  - reflexivity.
  - apply all_zero_count. reflexivity.
  - vm_compute. reflexivity.
  - exists c. split; [ | exact Hc ]. rewrite Hout, Ha. reflexivity.
Defined.

(** ** The rows selected on lines 187-188 *)

(** X11: the positions found by [nonzero] are exactly the positions of the
    non-zero observations, in increasing order and inside the series, and
    selecting these rows never raises: it gives the non-zero observations
    in their original order. *)
Theorem nonzero_selection (X : series) :
  iloc X (nonzero X) = Ret (filter is_nonzero X) /\
  StronglySorted Z.lt (nonzero X) /\
  (forall i, In i (nonzero X) <-> nonzero_at X i) /\
  (forall i, In i (nonzero X) -> 0 <= i < len X) /\
  len (nonzero X) = len (filter is_nonzero X).
Proof.
  split; [ apply iloc_nonzero | ].
  split; [ apply nonzero_from_sorted | ].
  split; [ apply In_nonzero | ].
  split.
  - intros i Hi. apply In_nonzero in Hi.
    pose proof (nonzero_at_lt_len X i Hi). destruct Hi as [Hi _]. lia.
  - apply len_nonzero.
Qed.

(** ** The test parameter sets *)

(** X12: every parameter set of [get_test_params] constructs an object,
    with one of the three trim handlings and valid features, and on every
    series with at least two non-zero observations that object returns a
    table whose columns are its configured features. *)
Theorem test_params_usable (parameter_set : string) (params : kwargs)
    (X : series) :
  In params (get_test_params parameter_set) ->
  2 <= count_nonzero X ->
  exists self df,
    construct params = Ret self /\
    In (adi_trim_handling self) ["pool"; "trim"; "ignore"] /\
    outcome (_transform X) self = Ret df /\
    map fst df = features_internal self.
Proof.
  intros Hin HN.
  assert (Hgen : forall self,
            valid_features (features_internal self) ->
            In (adi_trim_handling self) ["pool"; "trim"; "ignore"] ->
            exists df, outcome (_transform X) self = Ret df /\
                       map fst df = features_internal self).
  { intros self Hv Hh.
    assert (Hc : computable (adi_trim_handling self) X).
    { destruct Hh as [ E | [ E | [ E | [] ] ] ]; symmetry in E.
      - left. split; [ exact E | lia ].
      - right. left. split; [ exact E | lia ].
      - right. right. split; [ exact E | lia ]. }
    destruct (adi_outcome_computable X self Hc) as [a Ha].
    rewrite transform_valid_outcome, Ha by exact Hv. simpl.
    eexists. split; [ reflexivity | ].
    rewrite map_map. simpl. apply map_id. }
  destruct Hin as [ E | [ E | [ E | [] ] ] ]; subst params.
  - destruct (Hgen (transformer "pool")) as [df [Hout Hcols]];
      [ intros f H; exact H | simpl; auto | ].
    exists (transformer "pool"), df. repeat split; simpl; auto.
  - destruct (Hgen (transformer "pool")) as [df [Hout Hcols]];
      [ intros f H; exact H | simpl; auto | ].
    exists (transformer "pool"), df. repeat split; simpl; auto.
  - set (self := mkADICV 1.5%float 0.2%float (Some ["adi"; "class"]) "trim"
                   ["adi"; "class"]).
    destruct (Hgen self) as [df [Hout Hcols]];
      [ intros f [ H | [ H | [] ] ]; subst f; simpl; auto | simpl; auto | ].
    exists self, df. repeat split; simpl; auto.
Qed.

Lemma test_params_usable_witness :
  exists self df,
    construct (mkKwargs (Some (Some ["adi"; "class"])) (Some 1.5%float)
                 (Some 0.2%float) (Some "trim")) = Ret self /\
    outcome (_transform scenario_A) self = Ret df /\
    map fst df = ["adi"; "class"].
Proof.
  destruct (test_params_usable "default"
              (mkKwargs (Some (Some ["adi"; "class"])) (Some 1.5%float)
                 (Some 0.2%float) (Some "trim")) scenario_A)
    as (self & df & Hc & _ & Hout & Hcols).
  - simpl. auto.
  - vm_compute. discriminate.
  - exists self, df. split; [ exact Hc | ]. split; [ exact Hout | ].
    rewrite Hcols. inversion Hc. reflexivity.
Defined.
